(** * The currency-converter API (netlify/functions/api.ts)

    A shallow embedding of the Express handlers of [netlify/functions/api.ts]
    and of the helpers they call: the scrypt credential helpers
    ([hashPassword], [comparePasswords]), the exchange-rate resolver
    ([fetchExchangeRates], [getFallbackRates]) and the five routes.

    Conventions of the embedding.
    - A JavaScript string is a [string]; each character stands for one UTF-16
      code unit below 256, which covers every character the code inspects
      (hex digits, ['.'], signs, decimal digits, white space).
    - A JavaScript number is a binary64 [float]; a [Buffer] is a [list byte].
    - An object is a finite map from property names to values.
    - [await], [async] and [promisify] are sequential composition: a rejected
      promise is a thrown exception at the [await].
    - [console.error] only writes to the log and is left out.
    - [req.body] is the object [bodyParser.json] built; [req.query] is the
      object Express's query parser built, whose values are strings, arrays
      (a repeated parameter) or objects (a bracketed one, [?a[b]=c]): the
      [as string] casts of the source check nothing. *)

From Stdlib Require Import ZArith NArith String Ascii List Bool Lia.
From Stdlib Require Import Strings.Byte.
From Stdlib Require Import PrimFloat SpecFloat FloatOps.
From Stdlib Require FloatAxioms Uint63.
From stdpp Require Import base option list gmap strings.

Set Default Proof Using "Type".
#[local] Set Warnings "-register-all,-inexact-float".
Local Open Scope string_scope.

(** ** JavaScript values *)

Inductive value : Type :=
| VUndefined
| VNull
| VBool (b : bool)
| VNumber (x : float)
| VString (s : string)
| VArray (xs : list value)
| VObject (o : gmap string value).

Abbreviation obj := (gmap string value).

(** [o.k]: the property, or [undefined]. *)
Definition get (o : obj) (k : string) : value := default VUndefined (o !! k).

(** Exceptions, by constructor name; [OtherError] is whatever a collaborator
    (storage, the HTTP client) throws. *)
Inductive error : Type :=
| TypeError (msg : string)
| RangeError (msg : string)
| OtherError (detail : value).

Inductive outcome (A : Type) : Type :=
| Returned (a : A)
| Thrown (e : error).
Arguments Returned {A} a.
Arguments Thrown {A} e.

(** ** Buffers and the 'hex' encoding *)

Module Hex.

(** One lower-case hex digit, as [Buffer.prototype.toString('hex')] prints it. *)
Definition digit (n : N) : ascii :=
  if (n <? 10)%N then ascii_of_N (48 + n) else ascii_of_N (87 + n).

(** The value of a hex digit of either case, as [Buffer.from(s, 'hex')]
    reads it; [None] for any other character. *)
Definition value_of (c : ascii) : option N :=
  let n := N_of_ascii c in
  if ((48 <=? n) && (n <=? 57))%N then Some (n - 48)%N
  else if ((97 <=? n) && (n <=? 102))%N then Some (n - 87)%N
  else if ((65 <=? n) && (n <=? 70))%N then Some (n - 55)%N
  else None.

Definition byte_of_nibbles (hi lo : N) : byte :=
  default Byte.x00 (Byte.of_N (16 * hi + lo)).

(** [buf.toString('hex')] *)
Fixpoint encode (bs : list byte) : string :=
  match bs with
  | [] => ""
  | b :: rest =>
      String (digit (Byte.to_N b / 16))
        (String (digit (Byte.to_N b mod 16)) (encode rest))
  end.

(** [Buffer.from(s, 'hex')]: pairs of hex digits are decoded until the first
    pair that is not two hex digits; a trailing single character is dropped. *)
Fixpoint decode (s : string) : list byte :=
  match s with
  | String a (String b rest) =>
      match value_of a, value_of b with
      | Some hi, Some lo => byte_of_nibbles hi lo :: decode rest
      | _, _ => []
      end
  | _ => []
  end.

End Hex.

(** [s.split(sep)] for a one-character separator: the segments between the
    occurrences of [sep], never an empty array. *)
Fixpoint split (sep : ascii) (s : string) : list string :=
  match s with
  | "" => [""]
  | String c rest =>
      if Ascii.eqb c sep then "" :: split sep rest
      else match split sep rest with
           | seg :: segs => String c seg :: segs
           | [] => [String c ""]
           end
  end.

(** A '.' occurs in the string. *)
Fixpoint has_dot (s : string) : bool :=
  match s with
  | "" => false
  | String c rest => Ascii.eqb c "."%char || has_dot rest
  end.

Fixpoint bytes_eqb (a b : list byte) : bool :=
  match a, b with
  | [], [] => true
  | x :: a', y :: b' => Byte.eqb x y && bytes_eqb a' b'
  | _, _ => false
  end.

(** [crypto.timingSafeEqual(a, b)]: a [RangeError] when the byte lengths
    differ, otherwise whether the contents are equal. *)
Definition timingSafeEqual (a b : list byte) : outcome bool :=
  if Nat.eqb (length a) (length b) then Returned (bytes_eqb a b)
  else Thrown (RangeError "Input buffers must have the same byte length").

(** ** Numbers *)

(** The falsy numbers are [NaN], [+0] and [-0]. *)
Definition number_falsy (x : float) : bool := is_nan x || is_zero x.

(** [x || d] on a number [x]. *)
Definition number_or (x d : float) : float := if number_falsy x then d else x.

(** The number nearest to an integer (ties to even), with the sign of zero
    given by [neg]. *)
Definition number_of_int (neg : bool) (n : N) : float :=
  SF2Prim (binary_normalize prec emax
             (if neg then Z.opp (Z.of_N n) else Z.of_N n) 0 neg).

Module ParseInt.

(** White space skipped by [parseInt]: TAB, LF, VT, FF, CR, SP and NBSP. *)
Definition is_white_space (c : ascii) : bool :=
  let n := N_of_ascii c in
  ((9 <=? n) && (n <=? 13) || (n =? 32) || (n =? 160))%N.

Fixpoint trim_start (s : string) : string :=
  match s with
  | String c rest => if is_white_space c then trim_start rest else s
  | "" => ""
  end.

(** The value of a digit in the given radix. *)
Definition digit_of (radix : N) (c : ascii) : option N :=
  let n := N_of_ascii c in
  let v := if ((48 <=? n) && (n <=? 57))%N then Some (n - 48)%N
           else if ((97 <=? n) && (n <=? 122))%N then Some (n - 87)%N
           else if ((65 <=? n) && (n <=? 90))%N then Some (n - 55)%N
           else None in
  match v with
  | Some d => if (d <? radix)%N then Some d else None
  | None => None
  end.

(** The integer written by the longest prefix of digits; [acc] is [None]
    until a digit has been read. *)
Fixpoint digits (radix : N) (s : string) (acc : option N) : option N :=
  match s with
  | String c rest =>
      match digit_of radix c with
      | Some d => digits radix rest (Some (radix * default 0 acc + d)%N)
      | None => acc
      end
  | "" => acc
  end.

(** The sign, then the optional [0x] prefix, then the digits: [None] is
    [NaN]. *)
Definition literal (s : string) : option (bool * N) :=
  let s := trim_start s in
  let '(neg, s) :=
    match s with
    | String c rest =>
        if Ascii.eqb c "-" then (true, rest)
        else if Ascii.eqb c "+" then (false, rest)
        else (false, s)
    | "" => (false, s)
    end in
  let '(radix, s) :=
    match s with
    | String z (String x rest) =>
        if Ascii.eqb z "0" && (Ascii.eqb x "x" || Ascii.eqb x "X")
        then (16%N, rest) else (10%N, s)
    | _ => (10%N, s)
    end in
  match digits radix s None with
  | Some n => Some (neg, n)
  | None => None
  end.

End ParseInt.

(** [parseInt(s)] with no radix argument. *)
Definition parseInt (s : string) : float :=
  match ParseInt.literal s with
  | Some (neg, n) => number_of_int neg n
  | None => nan
  end.

(** What [parseInt] is expected to yield, told by the shape of the text and
    without reference to the parser above. *)
Module Numeral.

Inductive sign : Type := Unsigned | Plus | Minus.

Definition sign_text (sg : sign) : string :=
  match sg with
  | Unsigned => ""
  | Plus => "+"
  | Minus => "-"
  end.

Definition is_minus (sg : sign) : bool :=
  match sg with
  | Minus => true
  | _ => false
  end.

(** The character of a decimal digit. *)
Definition digit_char (d : N) : ascii := ascii_of_N (48 + d).

(** A list of decimal digits, most significant first, as text and as the
    integer it writes. *)
Fixpoint text (ds : list N) : string :=
  match ds with
  | [] => ""
  | d :: rest => String (digit_char d) (text rest)
  end.

Definition value_of (ds : list N) : N :=
  fold_left (fun acc d => (10 * acc + d)%N) ds 0%N.

Definition is_digit (c : ascii) : bool :=
  let n := N_of_ascii c in ((48 <=? n) && (n <=? 57))%N.

Definition is_sign (c : ascii) : bool := Ascii.eqb c "+" || Ascii.eqb c "-".

Definition is_x (c : ascii) : bool := Ascii.eqb c "x" || Ascii.eqb c "X".

(** The string begins with a character that passes the test. *)
Definition begins (test : ascii -> bool) (s : string) : bool :=
  match s with
  | String c _ => test c
  | "" => false
  end.

Fixpoint all_white (s : string) : bool :=
  match s with
  | "" => true
  | String c rest => ParseInt.is_white_space c && all_white rest
  end.

End Numeral.

(** [reads_as v x]: [parseInt(v)] is [x]. An absent parameter and a string
    that, after white space and a sign, does not go on with a digit read as
    [NaN]; a string that goes on with decimal digits (and is not a [0x]
    literal) reads as the integer they write, negated after a ['-'],
    whatever follows the digits. *)
Inductive reads_as : value -> float -> Prop :=
| reads_absent : reads_as VUndefined nan
| reads_no_integer (ws : string) (sg : Numeral.sign) (rest : string) :
    Numeral.all_white ws = true ->
    Numeral.begins Numeral.is_digit rest = false ->
    (sg = Numeral.Unsigned ->
     Numeral.begins (fun c => Numeral.is_sign c || ParseInt.is_white_space c)
       rest = false) ->
    reads_as (VString (ws +:+ Numeral.sign_text sg +:+ rest)) nan
| reads_integer (ws : string) (sg : Numeral.sign) (ds : list N) (rest : string) :
    Numeral.all_white ws = true ->
    ds <> [] ->
    Forall (fun d => (d < 10)%N) ds ->
    Numeral.begins Numeral.is_digit rest = false ->
    (ds = [0%N] -> Numeral.begins Numeral.is_x rest = false) ->
    reads_as
      (VString (ws +:+ Numeral.sign_text sg +:+ Numeral.text ds +:+ rest))
      (number_of_int (Numeral.is_minus sg) (Numeral.value_of ds)).

(** ** The runtime underneath *)

(** What the embedding takes from Node.js as given: the scrypt key derivation
    of [crypto.scrypt] with its default cost parameters, as a function of the
    password, the salt and the key length, and the decimal printing of a
    number ([Number::toString]). *)
Class Runtime : Type := {
  scrypt_kdf : string -> string -> nat -> list byte;
  number_to_string : float -> string;
}.

(** [ToString(v)] for a value that came out of [JSON.parse] or of the query
    parser. An object is
    printed by [Object.prototype.toString] unless an own [toString] property
    (never a function in JSON) hides it, in which case the conversion throws;
    an array joins its elements with commas, [null] and [undefined] printing
    as nothing. *)
Fixpoint to_js_string `{Runtime} (v : value) : outcome string :=
  match v with
  | VUndefined => Returned "undefined"
  | VNull => Returned "null"
  | VBool b => Returned (if b then "true" else "false")
  | VNumber x => Returned (number_to_string x)
  | VString s => Returned s
  | VArray xs =>
      (fix join (l : list value) : outcome string :=
         match l with
         | [] => Returned ""
         | x :: rest =>
             let elem := match x with
                         | VUndefined | VNull => Returned ""
                         | _ => to_js_string x
                         end in
             match elem, rest with
             | Thrown e, _ => Thrown e
             | Returned s, [] => Returned s
             | Returned s, _ :: _ =>
                 match join rest with
                 | Returned t => Returned (s +:+ "," +:+ t)
                 | Thrown e => Thrown e
                 end
             end
         end) xs
  | VObject o =>
      match o !! "toString" with
      | Some _ => Thrown (TypeError "Cannot convert object to primitive value")
      | None => Returned "[object Object]"
      end
  end.

(** ** Storage *)

(** The [storage] collaborator of [server/storage]: four operations over a
    state of its own, each of which may throw. A user and a conversion are
    objects; [getUserByUsername] answers [undefined] ([None]) for an unknown
    name. *)
Class Storage (St : Type) : Type := {
  getUserByUsername : value -> St -> outcome (option obj) * St;
  createUser : obj -> St -> outcome obj * St;
  saveConversion : obj -> St -> outcome value * St;
  getConversions : float -> float -> float -> St -> outcome value * St;
}.

(** ** The world a request runs in *)

(** How a call of [axios.get] ends: with no response at all, or with the
    final response (the one reached after any redirects axios follows on its
    own), its status and its parsed body. *)
Inductive http_reply : Type :=
| NetworkError (e : error)
| HttpResponse (code : Z) (data : value).

Record World (St : Type) : Type := mkWorld {
  store : St;                      (* the storage backend *)
  entropy : nat -> byte;           (* the bytes [randomBytes] will draw *)
  now : string;                    (* [new Date().toUTCString()] *)
  api_key : option string;         (* [process.env.EXCHANGE_RATE_API_KEY] *)
  http : string -> http_reply;     (* how [axios.get(url)] ends, by URL *)
  axios_calls : list string;       (* the URLs [axios.get] was called with *)
}.
Arguments mkWorld {St}.
Arguments store {St}.
Arguments entropy {St}.
Arguments now {St}.
Arguments api_key {St}.
Arguments http {St}.
Arguments axios_calls {St}.

Definition set_store {St} (s : St) (w : World St) : World St :=
  mkWorld s (entropy w) (now w) (api_key w) (http w) (axios_calls w).

Definition skip_entropy {St} (n : nat) (w : World St) : World St :=
  mkWorld (store w) (fun i => entropy w (n + i)) (now w) (api_key w) (http w)
    (axios_calls w).

(** Record a call of [axios.get]. *)
Definition log_request {St} (url : string) (w : World St) : World St :=
  mkWorld (store w) (entropy w) (now w) (api_key w) (http w)
    (axios_calls w ++ [url])%list.

(** A computation that runs in the world and returns or throws. *)
Definition M (St A : Type) : Type := World St -> outcome A * World St.

Definition ret {St A} (a : A) : M St A := fun w => (Returned a, w).

Definition bind {St A B} (m : M St A) (k : A -> M St B) : M St B :=
  fun w => match m w with
           | (Returned a, w') => k a w'
           | (Thrown e, w') => (Thrown e, w')
           end.

Definition throw {St A} (e : error) : M St A := fun w => (Thrown e, w).

(** [try { m } catch (e) { h e }] *)
Definition try_catch {St A} (m : M St A) (h : error -> M St A) : M St A :=
  fun w => match m w with
           | (Returned a, w') => (Returned a, w')
           | (Thrown e, w') => h e w'
           end.

Definition lift {St A} (o : outcome A) : M St A := fun w => (o, w).

(** A call into storage. *)
Definition on_store {St A} (f : St -> outcome A * St) : M St A :=
  fun w => let '(r, s) := f (store w) in (r, set_store s w).

Notation "'let*' x := m 'in' k" := (bind m (fun x => k))
  (at level 10, x name, m at level 100, k at level 200).

(** ** Requests and responses *)

Record request : Type := mkRequest {
  body : obj;                      (* [req.body], parsed JSON *)
  query : obj;                     (* [req.query], as the parser built it *)
}.

Record response : Type := mkResponse {
  status : Z;
  payload : value;
}.

(** [res.status(code).json(v)] *)
Definition json (code : Z) (v : value) : response := mkResponse code v.

(** [{ error: msg }] *)
Definition error_body (msg : string) : value :=
  VObject {[ "error" := VString msg ]}.

(** Truthiness of a value. *)
Definition truthy (v : value) : bool :=
  match v with
  | VUndefined | VNull => false
  | VBool b => b
  | VNumber x => negb (number_falsy x)
  | VString s => negb (String.eqb s "")
  | VArray _ | VObject _ => true
  end.

(** [err.message] *)
Definition error_message (e : error) : value :=
  match e with
  | TypeError msg | RangeError msg => VString msg
  | OtherError (VObject o) => get o "message"
  | OtherError _ => VUndefined
  end.

(** The error-handling middleware registered ahead of the routes: it answers
    errors handed to [next] by the middleware before it. *)
Definition error_middleware (err : error) : response :=
  json 500 (VObject {[ "error" :=
    if truthy (error_message err) then error_message err
    else VString "Internal Server Error" ]}).

(** ** The fallback table *)

Module Fallback.

(** The literal [baseRates], in source order. *)
Definition baseRates : list (string * float) :=
  [ ("USD", 1%float); ("EUR", 0.85%float); ("GBP", 0.73%float);
    ("JPY", 110.45%float); ("CAD", 1.25%float); ("AUD", 1.32%float);
    ("CHF", 0.92%float); ("CNY", 6.45%float); ("INR", 74.5%float);
    ("RUB", 73.2%float) ].

(** The names every object literal inherits from [Object.prototype]. *)
Definition object_prototype_members : list string :=
  [ "constructor"; "__defineGetter__"; "__defineSetter__"; "hasOwnProperty";
    "__lookupGetter__"; "__lookupSetter__"; "isPrototypeOf";
    "propertyIsEnumerable"; "toString"; "valueOf"; "__proto__";
    "toLocaleString" ].

(** What reading [baseRates[key]] yields: an own rate, a member inherited
    from [Object.prototype] (a function, or the prototype itself for
    [__proto__]), or [undefined]. *)
Inductive property : Type :=
| OwnRate (x : float)
| Inherited (name : string)
| Undefined.

Fixpoint own_rate (table : list (string * float)) (key : string) : option float :=
  match table with
  | [] => None
  | (k, x) :: rest => if String.eqb k key then Some x else own_rate rest key
  end.

Definition read (key : string) : property :=
  match own_rate baseRates key with
  | Some x => OwnRate x
  | None =>
      if existsb (String.eqb key) object_prototype_members
      then Inherited key else Undefined
  end.

(** The divisor [baseRates[key] || 1]: a number, or the inherited object
    (every object is truthy). *)
Inductive divisor : Type :=
| ByNumber (x : float)
| ByObject (name : string).

Definition base_value (key : string) : divisor :=
  match read key with
  | OwnRate x => ByNumber (number_or x 1)
  | Inherited name => ByObject name
  | Undefined => ByNumber 1
  end.

(** [rate / baseValue]: a function or a plain object converts to [NaN]. *)
Definition divide (rate : float) (d : divisor) : float :=
  match d with
  | ByNumber x => (rate / x)%float
  | ByObject _ => (rate / nan)%float
  end.

(** The [forEach] over [Object.entries(baseRates)], assigning into [rates]. *)
Definition cross_rates (d : divisor) : obj :=
  foldl (fun (rates : obj) '(currency, rate) =>
           <[ currency := VNumber (divide rate d) ]> rates)
        ∅ baseRates.

End Fallback.

(** ** The helpers and the routes *)

Section Api.

Context {St : Type} `{!Storage St} `{!Runtime}.

(** [randomBytes(n)]: the next [n] bytes of the entropy source. *)
Definition randomBytes (n : nat) : M St (list byte) :=
  fun w => (Returned (map (entropy w) (seq 0 n)), skip_entropy n w).

(** [scryptAsync(password, salt, keylen)]: a [TypeError] unless both the
    password and the salt are strings (JSON has no buffers). *)
Definition scryptAsync (password salt : value) (keylen : nat)
  : outcome (list byte) :=
  match password, salt with
  | VString p, VString s => Returned (scrypt_kdf p s keylen)
  | VString _, _ =>
      Thrown (TypeError "The salt argument must be of type string")
  | _, _ =>
      Thrown (TypeError "The password argument must be of type string")
  end.

Definition hashPassword (password : value) : M St string :=
  let* bytes := randomBytes 16 in
  let salt := Hex.encode bytes in
  let* buf := lift (scryptAsync password (VString salt) 64) in
  ret (Hex.encode buf +:+ "." +:+ salt).

(** [const [hashed, salt] = stored.split('.')]: a missing second segment
    leaves [salt] undefined; [stored.split] throws unless [stored] is a
    string. *)
Definition comparePasswords (supplied stored : value) : outcome bool :=
  match stored with
  | VString s =>
      match split "." s with
      | hashed :: segments =>
          let salt := match segments with
                      | seg :: _ => VString seg
                      | [] => VUndefined
                      end in
          let hashedBuf := Hex.decode hashed in
          match scryptAsync supplied salt 64 with
          | Returned suppliedBuf => timingSafeEqual hashedBuf suppliedBuf
          | Thrown e => Thrown e
          end
      | [] => Thrown (TypeError "undefined is not a string")
      end
  | _ => Thrown (TypeError "stored.split is not a function")
  end.

(** [new Date().toUTCString()] *)
Definition current_time : M St string := fun w => (Returned (now w), w).

(** [process.env.EXCHANGE_RATE_API_KEY] *)
Definition env_api_key : M St (option string) :=
  fun w => (Returned (api_key w), w).

(** The base currency is whatever the caller passed. Used as a property
    key in [baseRates[baseCurrency]] it is first turned into text, which
    throws for a value that has none; as [base_code] it is sent as it is. *)
Definition getFallbackRates (baseCurrency : value) : M St value :=
  let* key := lift (to_js_string baseCurrency) in
  let baseValue := Fallback.base_value key in
  let rates := Fallback.cross_rates baseValue in
  let* time := current_time in
  ret (VObject {[ "base_code" := baseCurrency;
                  "conversion_rates" := VObject rates;
                  "time_last_update_utc" := VString time ]}).

Definition rates_url (apiKey baseCurrency : string) : string :=
  "https://v6.exchangerate-api.com/v6/" +:+ apiKey +:+ "/latest/"
    +:+ baseCurrency.

(** [axios.get(url)] yielding [response.data]: the call is recorded; the
    promise is rejected when there is no response or when the status of the
    final response is outside 200..299. *)
Definition axios_get (url : string) : M St value :=
  fun w =>
    let w' := log_request url w in
    match http w url with
    | NetworkError e => (Thrown e, w')
    | HttpResponse code data =>
        if ((200 <=? code) && (code <? 300))%Z then (Returned data, w')
        else (Thrown (OtherError (VObject
                {[ "message" := VString "Request failed" ]})), w')
    end.

(** An environment variable is used when it is set and not empty. *)
Definition configured (key : option string) : option string :=
  match key with
  | Some k => if String.eqb k "" then None else Some k
  | None => None
  end.

(** The parameter defaults to 'USD' when the argument is [undefined]. The
    template literal of the URL turns the base currency into text before
    [axios.get] is called. *)
Definition fetchExchangeRates (baseCurrency : value) : M St value :=
  let baseCurrency := match baseCurrency with
                      | VUndefined => VString "USD"
                      | _ => baseCurrency
                      end in
  try_catch
    (let* apiKey := env_api_key in
     match configured apiKey with
     | Some k =>
         let* text := lift (to_js_string baseCurrency) in
         axios_get (rates_url k text)
     | None => getFallbackRates baseCurrency
     end)
    (fun _ => getFallbackRates baseCurrency).

(** The [try] block of [app.post('/register')]. *)
Definition register_try (req : request) : M St response :=
  let* existingUser := on_store (getUserByUsername (get (body req) "username")) in
  match existingUser with
  | Some _ => ret (json 400 (error_body "Username already exists"))
  | None =>
      let* hashed := hashPassword (get (body req) "password") in
      let* user := on_store (createUser
                      (<[ "password" := VString hashed ]> (body req))) in
      ret (json 201 (VObject (delete "password" user)))
  end.

Definition post_register (req : request) : M St response :=
  try_catch (register_try req)
    (fun _ => ret (json 500 (error_body "Failed to register user"))).

(** The [try] block of [app.post('/login')]. *)
Definition login_try (req : request) : M St response :=
  let username := get (body req) "username" in
  let password := get (body req) "password" in
  let* user := on_store (getUserByUsername username) in
  match user with
  | None => ret (json 401 (error_body "Invalid username or password"))
  | Some u =>
      let* same := lift (comparePasswords password (get u "password")) in
      if same then ret (json 200 (VObject (delete "password" u)))
      else ret (json 401 (error_body "Invalid username or password"))
  end.

Definition post_login (req : request) : M St response :=
  try_catch (login_try req)
    (fun _ => ret (json 500 (error_body "Login failed"))).

(** The [try] block of [app.get('/exchange-rates')]. *)
Definition exchange_rates_try (req : request) : M St response :=
  let baseCurrency :=
    if truthy (get (query req) "base") then get (query req) "base"
    else VString "USD" in
  let* rates := fetchExchangeRates baseCurrency in
  ret (json 200 rates).

Definition get_exchange_rates (req : request) : M St response :=
  try_catch (exchange_rates_try req)
    (fun _ => ret (json 500 (error_body "Failed to fetch exchange rates"))).

(** The [try] block of [app.post('/conversions')]. *)
Definition save_conversion_try (req : request) : M St response :=
  let* text := lift (to_js_string (get (body req) "userId")) in
  let userId := parseInt text in
  let conversionData := <[ "userId" := VNumber userId ]> (body req) in
  let* conversion := on_store (saveConversion conversionData) in
  ret (json 201 conversion).

Definition post_conversions (req : request) : M St response :=
  try_catch (save_conversion_try req)
    (fun _ => ret (json 500 (error_body "Failed to save conversion"))).

(** [parseInt(req.query.name as string)]: [parseInt] first turns its
    argument into text, "undefined" for an absent parameter, and throws
    when the parameter is a value that has no text. *)
Definition query_int (req : request) (name : string) : outcome float :=
  match to_js_string (get (query req) name) with
  | Returned text => Returned (parseInt text)
  | Thrown e => Thrown e
  end.

(** The [try] block of [app.get('/conversions')]. *)
Definition list_conversions_try (req : request) : M St response :=
  let* userId := lift (query_int req "userId") in
  let* parsedPage := lift (query_int req "page") in
  let page := number_or parsedPage 1 in
  let* parsedPageSize := lift (query_int req "pageSize") in
  let pageSize := number_or parsedPageSize 10 in
  let* result := on_store (getConversions userId page pageSize) in
  ret (json 200 result).

Definition get_conversions (req : request) : M St response :=
  try_catch (list_conversions_try req)
    (fun _ => ret (json 500 (error_body "Failed to fetch conversions"))).

End Api.

(** The five routes. *)
Inductive route : Type :=
| PostRegister
| PostLogin
| GetExchangeRates
| PostConversions
| GetConversions.

Section Dispatch.

Context {St : Type} `{!Storage St} `{!Runtime}.

Definition try_block (r : route) : request -> M St response :=
  match r with
  | PostRegister => register_try
  | PostLogin => login_try
  | GetExchangeRates => exchange_rates_try
  | PostConversions => save_conversion_try
  | GetConversions => list_conversions_try
  end.

Definition handler (r : route) : request -> M St response :=
  match r with
  | PostRegister => post_register
  | PostLogin => post_login
  | GetExchangeRates => get_exchange_rates
  | PostConversions => post_conversions
  | GetConversions => get_conversions
  end.

End Dispatch.

(** The message each route sends with a 500. *)
Definition failure_message (r : route) : string :=
  match r with
  | PostRegister => "Failed to register user"
  | PostLogin => "Login failed"
  | GetExchangeRates => "Failed to fetch exchange rates"
  | PostConversions => "Failed to save conversion"
  | GetConversions => "Failed to fetch conversions"
  end.

(** The statuses the routes use. *)
Definition known_statuses : list Z := [200; 201; 400; 401; 500]%Z.

(** ** Stand-ins for running the handlers on concrete requests *)

Module Demo.

Definition bytes_of_string (s : string) : list byte :=
  map byte_of_ascii (list_ascii_of_string s).

(** A stand-in key derivation: the password and the salt repeated up to the
    key length. It has the one property of scrypt the proofs use, the length
    of its output. *)
Definition toy_kdf (p s : string) (n : nat) : list byte :=
  let material := bytes_of_string (p +:+ "$" +:+ s) in
  map (fun i => nth (i mod length material) material Byte.x00) (seq 0 n).

Definition runtime : Runtime :=
  {| scrypt_kdf := toy_kdf; number_to_string := fun _ => "NaN" |}.

Definition same_string (a b : value) : bool :=
  match a, b with
  | VString x, VString y => String.eqb x y
  | _, _ => false
  end.

(** Users kept in a list; a conversion is accepted and forgotten, and a
    listing answers with the three numbers it was asked with. *)
Definition memory : Storage (list obj) :=
  {| getUserByUsername name users :=
       (Returned (find (fun u => same_string (get u "username") name) users),
        users);
     createUser u users :=
       let u' := <[ "id" := VNumber (number_of_int false
                                      (N.of_nat (S (length users)))) ]> u in
       (Returned u', (users ++ [u'])%list);
     saveConversion c users := (Returned (VObject c), users);
     getConversions userId page pageSize users :=
       (Returned (VArray [VNumber userId; VNumber page; VNumber pageSize]),
        users) |}.

Definition down : error :=
  OtherError (VObject {[ "message" := VString "ECONNREFUSED" ]}).

(** A storage backend that is down. *)
Definition unreachable : Storage unit :=
  {| getUserByUsername _ s := (Thrown down, s);
     createUser _ s := (Thrown down, s);
     saveConversion _ s := (Thrown down, s);
     getConversions _ _ _ s := (Thrown down, s) |}.

Definition offline (url : string) : http_reply :=
  NetworkError (OtherError (VObject {[ "message" := VString "ENOTFOUND" ]})).

Definition world {St} (s : St) : World St :=
  mkWorld s (fun i => default Byte.x00 (Byte.of_N (N.of_nat (i mod 256))))
    "Tue, 03 Nov 2026 00:00:00 GMT" None offline [].

Definition credentials (username password : string) : request :=
  mkRequest {[ "username" := VString username; "password" := VString password ]} ∅.

(** The world after one registration in an empty in-memory store. *)
Definition after_registering (req : request) : World (list obj) :=
  snd (@post_register _ memory runtime req (world [])).

(** The first user of an in-memory store. *)
Definition first_user (w : World (list obj)) : obj := hd ∅ (store w).

(** A world with a credential configured and a provider that answers the
    given status. *)
Definition provider (code : Z) : World unit :=
  mkWorld tt (fun _ => Byte.x00) "Tue, 03 Nov 2026 00:00:00 GMT"
    (Some "k3y")
    (fun _ => HttpResponse code (VObject {[ "result" := VString "success" ]}))
    [].

(** A user whose stored credential has no separator. *)
Definition legacy_user : obj :=
  {[ "username" := VString "bob"; "password" := VString "deadbeef" ]}.

Definition paging (page pageSize : string) : request :=
  mkRequest ∅ {[ "page" := VString page; "pageSize" := VString pageSize ]}.

End Demo.

(** * Properties *)

(** ** Hex strings and [split] *)

Lemma decode_encode_byte (b : byte) (rest : string) :
  Hex.decode (String (Hex.digit (Byte.to_N b / 16))
                (String (Hex.digit (Byte.to_N b mod 16)) rest))
  = b :: Hex.decode rest.
Proof. destruct b; reflexivity. Qed.

Lemma decode_encode (bs : list byte) : Hex.decode (Hex.encode bs) = bs.
Proof.
  induction bs as [|b bs IH]; [reflexivity|].
  cbn [Hex.encode]. rewrite decode_encode_byte. now rewrite IH.
Qed.

Lemma digits_are_not_dots (b : byte) :
  Ascii.eqb (Hex.digit (Byte.to_N b / 16)) "." = false
  /\ Ascii.eqb (Hex.digit (Byte.to_N b mod 16)) "." = false.
Proof. destruct b; split; reflexivity. Qed.

Lemma encode_has_no_dot (bs : list byte) : has_dot (Hex.encode bs) = false.
Proof.
  induction bs as [|b bs IH]; [reflexivity|].
  destruct (digits_are_not_dots b) as [Hhi Hlo].
  cbn [Hex.encode has_dot]. now rewrite Hhi, Hlo, IH.
Qed.

Lemma length_encode (bs : list byte) :
  String.length (Hex.encode bs) = 2 * length bs.
Proof.
  induction bs as [|b bs IH]; [reflexivity|].
  cbn [Hex.encode String.length length]. rewrite IH. lia.
Qed.

Lemma split_without_dot (s : string) :
  has_dot s = false -> split "." s = [s].
Proof.
  induction s as [|c s IH]; [reflexivity|].
  cbn [has_dot split]. intros [Hc Hs]%orb_false_iff.
  rewrite Hc, (IH Hs). reflexivity.
Qed.

Lemma split_at_first_dot (a b : string) :
  has_dot a = false -> split "." (a +:+ "." +:+ b) = a :: split "." b.
Proof.
  induction a as [|c a IH]; [reflexivity|].
  cbn [has_dot]. intros [Hc Ha]%orb_false_iff.
  change (String c a +:+ "." +:+ b) with (String c (a +:+ "." +:+ b)).
  cbn [split]. rewrite Hc, (IH Ha). reflexivity.
Qed.

Lemma bytes_eqb_refl (bs : list byte) : bytes_eqb bs bs = true.
Proof.
  induction bs as [|b bs IH]; [reflexivity|].
  cbn [bytes_eqb]. rewrite IH, andb_true_r. now destruct b.
Qed.

Lemma bytes_eqb_eq (a b : list byte) : bytes_eqb a b = true <-> a = b.
Proof.
  split; [|intros ->; apply bytes_eqb_refl].
  revert b. induction a as [|x a IH]; intros [|y b]; cbn [bytes_eqb];
    try discriminate; [reflexivity|].
  intros [Hxy Hab]%andb_true_iff.
  apply Byte.byte_dec_bl in Hxy. now rewrite Hxy, (IH _ Hab).
Qed.

Lemma timingSafeEqual_same (bs : list byte) :
  timingSafeEqual bs bs = Returned true.
Proof.
  unfold timingSafeEqual. now rewrite Nat.eqb_refl, bytes_eqb_refl.
Qed.

Section Credentials.

Context {St : Type} `{!Runtime}.

(** What [hashPassword] returns for a string, and the world it leaves. *)
Lemma hashPassword_string (p : string) (w : World St) :
  hashPassword (VString p) w
  = (Returned (Hex.encode (scrypt_kdf p (Hex.encode (map (entropy w) (seq 0 16))) 64)
               +:+ "." +:+ Hex.encode (map (entropy w) (seq 0 16))),
     skip_entropy 16 w).
Proof. reflexivity. Qed.

(** What [comparePasswords] computes on a stored string of the form
    [<hex>.<salt>]. *)
Lemma comparePasswords_stored (p : string) (key : list byte) (salt : string) :
  has_dot salt = false ->
  comparePasswords (VString p) (VString (Hex.encode key +:+ "." +:+ salt))
  = timingSafeEqual key (scrypt_kdf p salt 64).
Proof.
  intros Hsalt. unfold comparePasswords.
  rewrite (split_at_first_dot _ _ (encode_has_no_dot key)).
  rewrite (split_without_dot _ Hsalt), decode_encode. reflexivity.
Qed.

(** C1. Verifying a password against the string [hashPassword] stored for it
    succeeds: whatever salt the entropy source delivers, [hashPassword p]
    returns a string [stored], and [comparePasswords p stored] returns
    [true]. *)
Theorem comparePasswords_hashPassword (p : string) (w : World St) :
  exists stored w',
    hashPassword (VString p) w = (Returned stored, w')
    /\ comparePasswords (VString p) (VString stored) = Returned true.
Proof.
  eexists _, _. split; [apply hashPassword_string|].
  rewrite comparePasswords_stored by apply encode_has_no_dot.
  apply timingSafeEqual_same.
Qed.

(** C2. [hashPassword] draws 16 random bytes, hex-encodes them into a
    32-character salt, derives a 64-byte key from the password and that salt
    (64 bytes because scrypt returns as many bytes as it is asked for), and
    returns the key in hex (128 characters), a ['.'] and the salt in hex: a
    string that splits at ['.'] into exactly these two parts. *)
Theorem hashPassword_format (p : string) (w : World St)
    (scrypt_length : forall pw s n, length (scrypt_kdf pw s n) = n) :
  let bytes := map (entropy w) (seq 0 16) in
  let salt := Hex.encode bytes in
  let key := scrypt_kdf p salt 64 in
  let stored := Hex.encode key +:+ "." +:+ salt in
  hashPassword (VString p) w = (Returned stored, skip_entropy 16 w)
  /\ length bytes = 16
  /\ String.length salt = 32
  /\ length key = 64
  /\ String.length (Hex.encode key) = 128
  /\ split "." stored = [Hex.encode key; salt].
Proof.
  intros bytes salt key stored.
  assert (Hbytes : length bytes = 16) by reflexivity.
  assert (Hkey : length key = 64) by apply scrypt_length.
  repeat split; try done.
  - now rewrite length_encode, Hkey.
  - unfold stored.
    rewrite (split_at_first_dot _ _ (encode_has_no_dot key)).
    now rewrite (split_without_dot salt (encode_has_no_dot bytes)).
Qed.

(** Against a stored string [<key in hex>.<salt>] with a 64-byte key,
    [comparePasswords] never throws: it returns whether the key derived from
    the supplied password and the stored salt is the stored key. *)
Theorem comparePasswords_decides
    (p : string) (key : list byte) (salt : string)
    (scrypt_length : forall pw s n, length (scrypt_kdf pw s n) = n) :
  length key = 64 ->
  has_dot salt = false ->
  comparePasswords (VString p) (VString (Hex.encode key +:+ "." +:+ salt))
  = Returned (bytes_eqb key (scrypt_kdf p salt 64))
  /\ (bytes_eqb key (scrypt_kdf p salt 64) = true
      <-> key = scrypt_kdf p salt 64).
Proof.
  intros Hkey Hsalt. split; [|apply bytes_eqb_eq].
  rewrite (comparePasswords_stored _ _ _ Hsalt). unfold timingSafeEqual.
  now rewrite Hkey, scrypt_length.
Qed.

End Credentials.

(** ** The fallback snapshot *)

Section FallbackRates.

Import Fallback.

Lemma own_rate_In (table : list (string * float)) (key : string) (x : float) :
  own_rate table key = Some x -> In (key, x) table.
Proof.
  induction table as [|[k y] table IH]; cbn [own_rate]; [discriminate|].
  destruct (String.eqb_spec k key) as [->|_].
  - intros [= ->]. now left.
  - intros Hx. right. now apply IH.
Qed.

Lemma table_rates_are_truthy (key : string) (x : float) :
  own_rate baseRates key = Some x -> number_or x 1 = x.
Proof.
  intros Hx%own_rate_In. cbn [baseRates In] in Hx.
  repeat (destruct Hx as [[= _ <-]|Hx]; [reflexivity|]). destruct Hx.
Qed.

(** Away from the names of [Object.prototype], the divisor is the rate of
    the requested currency, or 1 when the table does not list it. *)
Lemma base_value_by_number (base : string) :
  existsb (String.eqb base) object_prototype_members = false ->
  base_value base = ByNumber (default 1%float (own_rate baseRates base)).
Proof.
  intros Hbase. unfold base_value, read.
  destruct (own_rate baseRates base) as [x|] eqn:Hx.
  - cbn [default]. now rewrite (table_rates_are_truthy _ _ Hx).
  - now rewrite Hbase.
Qed.

(** Each table currency is assigned its rate divided by the divisor. *)
Lemma cross_rates_lookup (d : divisor) :
  Forall (fun '(currency, rate) =>
            cross_rates d !! currency = Some (VNumber (divide rate d)))
         baseRates.
Proof. repeat constructor. Qed.

(** For a base currency that is not a name inherited from
    [Object.prototype], the fallback snapshot maps each of the ten table
    currencies to its rate divided by the rate of the base, or by 1 when the
    table does not list the base. *)
Lemma fallback_cross_rates (base : string) :
  existsb (String.eqb base) object_prototype_members = false ->
  Forall (fun '(currency, rate) =>
            cross_rates (base_value base) !! currency
            = Some (VNumber (rate / default 1 (own_rate baseRates base))%float))
         baseRates.
Proof.
  intros Hbase. rewrite (base_value_by_number _ Hbase).
  apply (cross_rates_lookup (ByNumber _)).
Qed.

(** For base "EUR": USD is 1/0.85 (printed 1.1764705882352942) and EUR is
    exactly 1. *)
Lemma fallback_rates_for_EUR :
  cross_rates (base_value "EUR") !! "USD" = Some (VNumber (1 / 0.85)%float)
  /\ (1 / 0.85 = 1.1764705882352942)%float
  /\ cross_rates (base_value "EUR") !! "EUR" = Some (VNumber 1%float).
Proof. repeat split; vm_compute; reflexivity. Qed.

(** C3, at the base "constructor". The table does not list it, yet
    [baseRates["constructor"]] is not [undefined]: the literal inherits
    [Object.prototype.constructor], a function, which is truthy, so [|| 1]
    does not apply and every rate is divided by a function: all ten rates
    are [NaN], where a baseline of 1 would have left USD at 1. *)
Theorem fallback_rates_for_constructor :
  own_rate baseRates "constructor" = None
  /\ base_value "constructor" = ByObject "constructor"
  /\ Forall (fun '(currency, _) =>
               cross_rates (base_value "constructor") !! currency
               = Some (VNumber nan))
            baseRates
  /\ Some (VNumber nan) <> Some (VNumber (1 / 1)%float).
Proof.
  split; [reflexivity|]. split; [reflexivity|]. split.
  - repeat constructor.
  - intros Hnan.
    apply (f_equal (fun v => match v with
                             | Some (VNumber x) => is_nan x
                             | _ => false
                             end)) in Hnan.
    vm_compute in Hnan. discriminate.
Qed.

End FallbackRates.

(** ** Integers as numbers *)

Section IntegersAsNumbers.

Local Open Scope Z_scope.

(** A spec float that is a nonzero number or an infinity. *)
Definition nonzero (x : spec_float) : Prop :=
  match x with
  | S754_finite _ _ _ | S754_infinity _ => True
  | _ => False
  end.

Lemma iter_pos_nat {A} (f : A -> A) (p : positive) (x : A) :
  SpecFloat.iter_pos f p x = @Nat.iter (Pos.to_nat p) A f x.
Proof.
  revert x. induction p as [p IH|p IH|]; intros x; cbn [SpecFloat.iter_pos].
  - rewrite !IH. change (f x) with (@Nat.iter 1 A f x).
    rewrite <- !Nat.iter_add. f_equal. lia.
  - rewrite !IH, <- Nat.iter_add. f_equal. lia.
  - reflexivity.
Qed.

Lemma shr_m_shr_1 (r : shr_record) :
  0 <= shr_m r -> shr_m (shr_1 r) = Z.div2 (shr_m r).
Proof. destruct r as [[|[p|p|]|p] b s]; cbn; try reflexivity; lia. Qed.

Lemma shr_m_iter (n k : nat) (r : shr_record) :
  2 ^ Z.of_nat (n + k) <= shr_m r ->
  2 ^ Z.of_nat k <= shr_m (@Nat.iter n shr_record shr_1 r).
Proof.
  revert k. induction n as [|n IH]; intros k Hr; [exact Hr|].
  rewrite Nat.iter_succ. specialize (IH (S k)).
  replace (n + S k)%nat with (S n + k)%nat in IH by lia. specialize (IH Hr).
  rewrite shr_m_shr_1 by (pose proof (Z.pow_pos_nonneg 2 (Z.of_nat (S k))); lia).
  rewrite Nat2Z.inj_succ, Z.pow_succ_r in IH by lia.
  rewrite Z.div2_div. apply Z.div_le_lower_bound; lia.
Qed.

Lemma digits2_pos_le (p : positive) :
  2 ^ (Zpos (digits2_pos p) - 1) <= Zpos p.
Proof.
  induction p as [p IH|p IH|]; cbn [digits2_pos]; [| |cbn; lia].
  all: rewrite Pos2Z.inj_succ;
    replace (Z.succ (Zpos (digits2_pos p)) - 1)
      with (Z.succ (Zpos (digits2_pos p) - 1)) by lia;
    rewrite Z.pow_succ_r by lia; lia.
Qed.

Lemma shr_fexp_positive (p : positive) (e : Z) (l : location) :
  -1074 <= e ->
  1 <= shr_m (fst (shr_fexp prec emax (Zpos p) e l))
  /\ -1074 <= snd (shr_fexp prec emax (Zpos p) e l).
Proof.
  intros He. unfold shr_fexp, shr, fexp, SpecFloat.emin, Zdigits2, prec, emax.
  set (d := Zpos (digits2_pos p)).
  assert (Hrec : shr_m (shr_record_of_loc (Zpos p) l) = Zpos p)
    by (now destruct l as [|[| |]]).
  destruct (Z.max (d + e - 53) (3 - 1024 - 53) - e) as [|k|k] eqn:Hn;
    cbn [fst snd]; rewrite ?Hrec; try lia.
  split; [|lia]. rewrite iter_pos_nat.
  apply (shr_m_iter (Pos.to_nat k) 0). rewrite Hrec, Nat.add_0_r.
  rewrite positive_nat_Z. pose proof (digits2_pos_le p) as Hp. fold d in Hp.
  assert (Hk : Zpos k <= d - 1) by lia.
  etransitivity; [|exact Hp]. apply Z.pow_le_mono_r; lia.
Qed.

Lemma binary_round_aux_nonzero (sx : bool) (p : positive) (e : Z) :
  -1074 <= e -> nonzero (binary_round_aux prec emax sx (Zpos p) e loc_Exact).
Proof.
  intros He. unfold binary_round_aux.
  destruct (shr_fexp_positive p e loc_Exact He) as [Hm He'].
  destruct (shr_fexp prec emax (Zpos p) e loc_Exact) as [mrs' e'].
  cbn [fst snd] in Hm, He'.
  assert (Hround : 1 <= round_nearest_even (shr_m mrs') (loc_of_shr_record mrs')).
  { unfold round_nearest_even.
    destruct (loc_of_shr_record mrs') as [|[| |]]; try lia.
    destruct (Z.even (shr_m mrs')); lia. }
  destruct (round_nearest_even _ _) as [|q|q]; try lia.
  destruct (shr_fexp_positive q e' loc_Exact He') as [Hm' _].
  destruct (shr_fexp prec emax (Zpos q) e' loc_Exact) as [mrs'' e''].
  cbn [fst] in Hm'. destruct (shr_m mrs'') as [|m|m]; try lia.
  now destruct (e'' <=? emax - prec).
Qed.

Lemma binary_round_nonzero (sx : bool) (p : positive) :
  nonzero (binary_round prec emax sx p 0).
Proof.
  unfold binary_round, shl_align.
  set (e' := fexp prec emax (Zpos (digits2_pos p) + 0)).
  assert (He' : -1074 <= e') by (unfold e', fexp, SpecFloat.emin, prec, emax; lia).
  destruct (e' - 0) as [|d|d]; apply binary_round_aux_nonzero; lia.
Qed.

Lemma binary_round_opp (p : positive) :
  binary_round prec emax true p 0 = SFopp (binary_round prec emax false p 0).
Proof.
  unfold binary_round, binary_round_aux.
  destruct (shl_align _ _ _) as [mz ez].
  destruct (shr_fexp prec emax (Zpos mz) ez loc_Exact) as [mrs' e'].
  destruct (shr_fexp prec emax _ e' loc_Exact) as [mrs'' e''].
  destruct (shr_m mrs''); try reflexivity.
  now destruct (e'' <=? emax - prec).
Qed.

Lemma SFeqb_nonzero (x : spec_float) :
  nonzero x -> SFeqb x x = true /\ SFeqb x (S754_zero false) = false.
Proof.
  destruct x as [s|s| |s m e]; cbn; try tauto; intros _.
  - now destruct s.
  - unfold SFeqb. cbn. rewrite Z.compare_refl, Pos.compare_cont_refl.
    now destruct s.
Qed.

Lemma nonzero_opp (x : spec_float) : nonzero x -> nonzero (SFopp x).
Proof. now destruct x. Qed.

Lemma truthy_of_nonzero (y : float) :
  nonzero (Prim2SF y) -> number_falsy y = false.
Proof.
  intros Hy. destruct (SFeqb_nonzero _ Hy) as [Hrefl Hzero].
  unfold number_falsy, is_nan, is_zero. rewrite !FloatAxioms.eqb_spec, Hrefl.
  change (Prim2SF zero) with (S754_zero false). now rewrite Hzero.
Qed.

Lemma number_of_int_truthy (neg : bool) (n : N) :
  (0 < n)%N -> (Z.of_N n < 2 ^ 63) ->
  number_falsy (number_of_int neg n) = false.
Proof.
  intros Hpos Hbound. destruct n as [|p]; [lia|]. cbn [Z.of_N] in Hbound.
  pose (y := of_uint63 (Uint63.of_Z (Zpos p))).
  assert (Hy : Prim2SF y = binary_round prec emax false p 0).
  { unfold y. rewrite FloatAxioms.of_uint63_spec, Uint63.of_Z_spec, Z.mod_small; [reflexivity|].
    change Uint63.wB with (2 ^ 63). lia. }
  assert (Hnonzero : nonzero (Prim2SF y))
    by (rewrite Hy; apply binary_round_nonzero).
  unfold number_of_int. destruct neg.
  - change (binary_normalize prec emax (- Z.of_N (N.pos p)) 0 true)
      with (binary_round prec emax true p 0).
    rewrite binary_round_opp, <- Hy, <- FloatAxioms.opp_spec,
      FloatAxioms.SF2Prim_Prim2SF.
    apply truthy_of_nonzero. rewrite FloatAxioms.opp_spec.
    now apply nonzero_opp.
  - change (binary_normalize prec emax (Z.of_N (N.pos p)) 0 false)
      with (binary_round prec emax false p 0).
    rewrite <- Hy, FloatAxioms.SF2Prim_Prim2SF. now apply truthy_of_nonzero.
Qed.

End IntegersAsNumbers.

(** ** What [parseInt] reads *)

Section ReadingIntegers.

Import Numeral.

(** The part of [ParseInt.literal] after white space and sign. *)
Definition after_sign (neg : bool) (s : string) : option (bool * N) :=
  let '(radix, s) :=
    match s with
    | String z (String x rest) =>
        if Ascii.eqb z "0" && (Ascii.eqb x "x" || Ascii.eqb x "X")
        then (16%N, rest) else (10%N, s)
    | _ => (10%N, s)
    end in
  match ParseInt.digits radix s None with
  | Some n => Some (neg, n)
  | None => None
  end.

Lemma literal_signed (ws : string) (sg : sign) (u : string) :
  all_white ws = true ->
  (sg = Unsigned ->
   begins (fun c => is_sign c || ParseInt.is_white_space c) u = false) ->
  ParseInt.literal (ws +:+ sign_text sg +:+ u) = after_sign (is_minus sg) u.
Proof.
  intros Hws Hu. unfold ParseInt.literal.
  assert (Htrim : ParseInt.trim_start (ws +:+ sign_text sg +:+ u)
                  = sign_text sg +:+ u).
  { induction ws as [|c ws IH].
    - destruct sg; [|reflexivity..]. change ("" +:+ sign_text Unsigned +:+ u) with u.
      destruct u as [|c u]; [reflexivity|].
      specialize (Hu eq_refl). cbn [begins] in Hu.
      apply orb_false_iff in Hu as [_ Hu]. cbn [ParseInt.trim_start]. now rewrite Hu.
    - cbn [all_white] in Hws. apply andb_true_iff in Hws as [Hc Hws].
      change (String c ws +:+ sign_text sg +:+ u)
        with (String c (ws +:+ sign_text sg +:+ u)).
      cbn [ParseInt.trim_start]. rewrite Hc. now apply IH. }
  rewrite Htrim. destruct sg; try reflexivity.
  change (sign_text Unsigned +:+ u) with u. cbn [is_minus].
  destruct u as [|c u]; [reflexivity|].
  specialize (Hu eq_refl). cbn [begins] in Hu.
  apply orb_false_iff in Hu as [Hsign _]. unfold is_sign in Hsign.
  apply orb_false_iff in Hsign as [Hplus Hminus]. now rewrite Hplus, Hminus.
Qed.

Lemma small_digit (d : N) :
  (d < 10)%N -> In d [0; 1; 2; 3; 4; 5; 6; 7; 8; 9]%N.
Proof. cbn [In]. lia. Qed.

(** What the parser makes of the character of a decimal digit. *)
Lemma digit_char_facts (d : N) :
  (d < 10)%N ->
  ParseInt.digit_of 10 (digit_char d) = Some d
  /\ Ascii.eqb (digit_char d) "0" = (d =? 0)%N
  /\ is_x (digit_char d) = false.
Proof.
  intros Hd%small_digit. cbn [In] in Hd.
  repeat (destruct Hd as [<-|Hd]; [now repeat split|]). destruct Hd.
Qed.

Lemma digits_stop (rest : string) (acc : option N) :
  begins is_digit rest = false -> ParseInt.digits 10 rest acc = acc.
Proof.
  destruct rest as [|c rest]; [reflexivity|]. cbn [begins ParseInt.digits].
  unfold is_digit, ParseInt.digit_of. intros ->.
  destruct ((97 <=? N_of_ascii c) && (N_of_ascii c <=? 122))%N eqn:Hlower.
  - apply andb_true_iff in Hlower as [Hlow%N.leb_le _].
    replace (N_of_ascii c - 87 <? 10)%N with false; [reflexivity|].
    symmetry. apply N.ltb_ge. lia.
  - destruct ((65 <=? N_of_ascii c) && (N_of_ascii c <=? 90))%N eqn:Hupper;
      [|reflexivity].
    apply andb_true_iff in Hupper as [Hlow%N.leb_le _].
    replace (N_of_ascii c - 55 <? 10)%N with false; [reflexivity|].
    symmetry. apply N.ltb_ge. lia.
Qed.

Lemma digits_text (ds : list N) (rest : string) (a : N) :
  Forall (fun d => (d < 10)%N) ds ->
  begins is_digit rest = false ->
  ParseInt.digits 10 (text ds +:+ rest) (Some a)
  = Some (fold_left (fun acc d => (10 * acc + d)%N) ds a).
Proof.
  intros Hds Hrest. revert a.
  induction Hds as [|d ds Hd _ IH]; intros a; [now apply digits_stop|].
  change (text (d :: ds) +:+ rest) with (String (digit_char d) (text ds +:+ rest)).
  cbn [ParseInt.digits fold_left].
  destruct (digit_char_facts d Hd) as [-> _]. apply IH.
Qed.

Lemma after_sign_integer (neg : bool) (ds : list N) (rest : string) :
  ds <> [] ->
  Forall (fun d => (d < 10)%N) ds ->
  begins is_digit rest = false ->
  (ds = [0%N] -> begins is_x rest = false) ->
  after_sign neg (text ds +:+ rest) = Some (neg, value_of ds).
Proof.
  intros Hnonempty Hds Hrest Hhex. unfold after_sign.
  destruct ds as [|d ds]; [now destruct Hnonempty|].
  pose proof (Forall_inv Hds) as Hd. pose proof (Forall_inv_tail Hds) as Htail.
  destruct (digit_char_facts d Hd) as (Hdigit & Hzero & _).
  assert (Hradix :
    match text (d :: ds) +:+ rest with
    | String z (String x rest') =>
        if Ascii.eqb z "0" && (Ascii.eqb x "x" || Ascii.eqb x "X")
        then (16%N, rest') else (10%N, text (d :: ds) +:+ rest)
    | _ => (10%N, text (d :: ds) +:+ rest)
    end = (10%N, text (d :: ds) +:+ rest)).
  { change (text (d :: ds) +:+ rest)
      with (String (digit_char d) (text ds +:+ rest)).
    destruct ds as [|d2 ds].
    - change (text [] +:+ rest) with rest.
      destruct rest as [|x rest]; [reflexivity|]. rewrite Hzero.
      destruct (N.eqb_spec d 0) as [->|_]; [|reflexivity].
      specialize (Hhex eq_refl). cbn [begins] in Hhex. unfold is_x in Hhex.
      now rewrite Hhex.
    - change (text (d2 :: ds) +:+ rest)
        with (String (digit_char d2) (text ds +:+ rest)).
      destruct (digit_char_facts d2 (Forall_inv Htail)) as (_ & _ & Hx).
      unfold is_x in Hx. now rewrite Hx, andb_false_r. }
  rewrite Hradix.
  change (text (d :: ds) +:+ rest) with (String (digit_char d) (text ds +:+ rest)).
  cbn [ParseInt.digits]. rewrite Hdigit. cbn [from_option id].
  now rewrite (digits_text ds rest _ Htail Hrest).
Qed.

Lemma after_sign_no_integer (neg : bool) (rest : string) :
  begins is_digit rest = false -> after_sign neg rest = None.
Proof.
  intros Hrest. unfold after_sign.
  assert (Hradix :
    match rest with
    | String z (String x rest') =>
        if Ascii.eqb z "0" && (Ascii.eqb x "x" || Ascii.eqb x "X")
        then (16%N, rest') else (10%N, rest)
    | _ => (10%N, rest)
    end = (10%N, rest)).
  { destruct rest as [|z [|x rest]]; try reflexivity.
    cbn [begins] in Hrest. destruct (Ascii.eqb_spec z "0") as [->|_];
      [discriminate Hrest|reflexivity]. }
  rewrite Hradix. now rewrite (digits_stop rest None Hrest).
Qed.

(** [reads_as] is what the parser computes. *)
Lemma parseInt_reads `{!Runtime} (v : value) (x : float) :
  reads_as v x ->
  exists t, to_js_string v = Returned t /\ parseInt t = x.
Proof.
  intros [|ws sg rest Hws Hrest Hunsigned|ws sg ds rest Hws Hne Hds Hrest Hhex].
  - now exists "undefined".
  - eexists. split; [reflexivity|]. unfold parseInt.
    rewrite (literal_signed ws sg rest Hws Hunsigned).
    now rewrite (after_sign_no_integer _ rest Hrest).
  - eexists. split; [reflexivity|]. unfold parseInt.
    rewrite (literal_signed ws sg (text ds +:+ rest) Hws).
    + now rewrite (after_sign_integer _ ds rest Hne Hds Hrest Hhex).
    + intros _. destruct ds as [|d ds]; [now destruct Hne|].
      change (text (d :: ds) +:+ rest)
        with (String (digit_char d) (text ds +:+ rest)).
      cbn [begins]. pose proof (small_digit d (Forall_inv Hds)) as Hd.
      cbn [In] in Hd.
      repeat (destruct Hd as [<-|Hd]; [reflexivity|]). destruct Hd.
Qed.

End ReadingIntegers.

(** ** [parseInt] on sample inputs *)

Example parseInt_decimal : parseInt "42" = 42%float.
Proof. reflexivity. Qed.

Example parseInt_stops_at_first_non_digit :
  parseInt "  -7.9px" = (-7)%float /\ parseInt "1e3" = 1%float.
Proof. split; reflexivity. Qed.

Example parseInt_hexadecimal : parseInt "0x1F" = 31%float.
Proof. reflexivity. Qed.

Example parseInt_not_a_number :
  parseInt "" = nan /\ parseInt "abc" = nan /\ parseInt "undefined" = nan
  /\ parseInt "0x" = nan /\ parseInt "+-1" = nan.
Proof. repeat split; reflexivity. Qed.

Example parseInt_zeros_are_falsy :
  number_falsy (parseInt "0") = true /\ number_falsy (parseInt "-0") = true
  /\ number_falsy (parseInt "000") = true.
Proof. repeat split; reflexivity. Qed.

(** Above 2^53 the integer is rounded to the nearest number. *)
Example parseInt_rounds :
  parseInt "9007199254740993" = 9007199254740992%float.
Proof. reflexivity. Qed.

(** ** The routes *)

Lemma set_store_same {St} (w : World St) : set_store (store w) w = w.
Proof. now destruct w. Qed.

Lemma store_set_store {St} (s : St) (w : World St) : store (set_store s w) = s.
Proof. reflexivity. Qed.

Lemma store_skip_entropy {St} (n : nat) (w : World St) :
  store (skip_entropy n w) = store w.
Proof. reflexivity. Qed.

Lemma delete_password_lookup (user : obj) :
  delete "password" user !! "password" = None.
Proof. apply lookup_delete_eq. Qed.

(** Unfold the monad of a handler down to the calls it makes. *)
Ltac run_handler :=
  unfold post_register, register_try, post_login, login_try,
    get_exchange_rates, exchange_rates_try, post_conversions,
    save_conversion_try, get_conversions, list_conversions_try,
    fetchExchangeRates, getFallbackRates, axios_get, env_api_key,
    current_time, try_catch, bind, ret, lift, throw, on_store in *.

Section Routes.

Context {St : Type} `{!Storage St} `{!Runtime}.

(** C4. A register request for a username that storage already knows is
    answered 400, and the only storage call made is the lookup: [createUser]
    is not called, so the storage state is the one the lookup left (the
    unchanged one when the lookup does not write). For a username storage
    does not know, the password is hashed with a fresh salt, the body with
    the hash in place of the password is handed to [createUser], and the
    answer is 201 with the created user. *)
Theorem register_conflict_or_created (req : request) (w : World St) :
  let username := get (body req) "username" in
  let salt := Hex.encode (map (entropy w) (seq 0 16)) in
  (forall existing s,
      getUserByUsername username (store w) = (Returned (Some existing), s) ->
      post_register req w
      = (Returned (json 400 (error_body "Username already exists")),
         set_store s w))
  /\ (forall existing,
      getUserByUsername username (store w)
      = (Returned (Some existing), store w) ->
      post_register req w
      = (Returned (json 400 (error_body "Username already exists")), w))
  /\ (forall p s user s',
      getUserByUsername username (store w) = (Returned None, s) ->
      get (body req) "password" = VString p ->
      createUser
        (<[ "password" :=
              VString (Hex.encode (scrypt_kdf p salt 64) +:+ "." +:+ salt) ]>
           (body req)) s
      = (Returned user, s') ->
      post_register req w
      = (Returned (json 201 (VObject (delete "password" user))),
         set_store s' (skip_entropy 16 (set_store s w)))).
Proof.
  intros username salt. subst username. repeat split.
  - intros existing s Hlookup. run_handler. now rewrite Hlookup.
  - intros existing Hlookup. run_handler.
    now rewrite Hlookup, set_store_same.
  - intros p s user s' Hlookup Hpassword Hcreate. run_handler.
    rewrite Hlookup, Hpassword, hashPassword_string. cbn [store set_store skip_entropy entropy].
    fold salt. now rewrite Hcreate.
Qed.

(** What the login route answers, by what the lookup and the verification
    did. *)
Lemma post_login_cases (req : request) (w : World St) :
  post_login req w
  = match getUserByUsername (get (body req) "username") (store w) with
    | (Returned None, s) =>
        (Returned (json 401 (error_body "Invalid username or password")),
         set_store s w)
    | (Returned (Some u), s) =>
        match comparePasswords (get (body req) "password") (get u "password") with
        | Returned true =>
            (Returned (json 200 (VObject (delete "password" u))), set_store s w)
        | Returned false =>
            (Returned (json 401 (error_body "Invalid username or password")),
             set_store s w)
        | Thrown _ =>
            (Returned (json 500 (error_body "Login failed")), set_store s w)
        end
    | (Thrown _, s) =>
        (Returned (json 500 (error_body "Login failed")), set_store s w)
    end.
Proof.
  run_handler.
  destruct (getUserByUsername _ _) as [[[u|]|e] s]; try reflexivity.
  destruct (comparePasswords _ _) as [[|]|e]; reflexivity.
Qed.

(** C5. The login route always answers, and it answers 401 exactly when the
    lookup returned no user or the verification of the supplied password
    against the stored credential returned [false]; when the lookup returned
    a user and the verification returned [true] it answers 200 with that
    user's record, less the password. *)
Theorem login_unauthorized_iff (req : request) (w : World St) :
  let username := get (body req) "username" in
  let password := get (body req) "password" in
  exists resp w',
    post_login req w = (Returned resp, w')
    /\ (status resp = 401%Z <->
        (exists s, getUserByUsername username (store w) = (Returned None, s))
        \/ (exists u s,
               getUserByUsername username (store w) = (Returned (Some u), s)
               /\ comparePasswords password (get u "password") = Returned false))
    /\ (forall u s,
          getUserByUsername username (store w) = (Returned (Some u), s) ->
          comparePasswords password (get u "password") = Returned true ->
          resp = json 200 (VObject (delete "password" u))
          /\ w' = set_store s w).
Proof.
  intros username password. subst username password.
  rewrite post_login_cases.
  destruct (getUserByUsername _ _) as [[[u|]|e] s].
  - destruct (comparePasswords _ _) as [[|]|e] eqn:Hcmp;
      eexists _, _; (split; [reflexivity|]); cbn [status json]; split.
    + split; [discriminate|].
      intros [[s' [=]]|(u' & s' & [= <- <-] & Hfalse)].
      rewrite Hcmp in Hfalse. discriminate.
    + intros u' s' [= <- <-] _. done.
    + split; [|done]. intros _. right. exists u, s. now rewrite Hcmp.
    + intros u' s' [= <- <-] Htrue. rewrite Hcmp in Htrue. discriminate.
    + split; [discriminate|].
      intros [[s' [=]]|(u' & s' & [= <- <-] & Hfalse)].
      rewrite Hcmp in Hfalse. discriminate.
    + intros u' s' [= <- <-] Htrue. rewrite Hcmp in Htrue. discriminate.
  - eexists _, _. split; [reflexivity|]. cbn [status json]. split.
    + split; [|done]. intros _. left. now exists s.
    + intros u s' [=].
  - eexists _, _. split; [reflexivity|]. cbn [status json]. split.
    + split; [discriminate|]. intros [[s' [=]]|(u' & s' & [=] & _)].
    + intros u s' [=].
Qed.

(** What the register route answers, by what storage and hashing did. *)
Lemma post_register_cases (req : request) (w : World St) :
  post_register req w
  = match getUserByUsername (get (body req) "username") (store w) with
    | (Returned (Some _), s) =>
        (Returned (json 400 (error_body "Username already exists")),
         set_store s w)
    | (Returned None, s) =>
        match hashPassword (get (body req) "password") (set_store s w) with
        | (Returned hashed, w1) =>
            match createUser (<[ "password" := VString hashed ]> (body req))
                    (store w1) with
            | (Returned user, s') =>
                (Returned (json 201 (VObject (delete "password" user))),
                 set_store s' w1)
            | (Thrown _, s') =>
                (Returned (json 500 (error_body "Failed to register user")),
                 set_store s' w1)
            end
        | (Thrown _, w1) =>
            (Returned (json 500 (error_body "Failed to register user")), w1)
        end
    | (Thrown _, s) =>
        (Returned (json 500 (error_body "Failed to register user")),
         set_store s w)
    end.
Proof.
  unfold post_register, register_try, try_catch, bind, ret, on_store.
  destruct (getUserByUsername _ _) as [[[u|]|e] s]; try reflexivity.
  destruct (hashPassword _ _) as [[hashed|e] w1]; try reflexivity.
  destruct (createUser _ _) as [[user|e] s']; reflexivity.
Qed.

(** C6. A 201 from the register route and a 200 from the login route carry
    an object with no [password] property, whatever storage returned as the
    user. *)
Theorem success_responses_omit_password
    (req : request) (w w' : World St) (resp : response) :
  (post_register req w = (Returned resp, w') /\ status resp = 201%Z)
  \/ (post_login req w = (Returned resp, w') /\ status resp = 200%Z) ->
  exists user : obj,
    payload resp = VObject user /\ user !! "password" = None.
Proof.
  intros [[Hrun Hstatus]|[Hrun Hstatus]].
  - rewrite post_register_cases in Hrun.
    repeat case_match; simplify_eq; try discriminate Hstatus.
    eexists. split; [reflexivity|apply delete_password_lookup].
  - rewrite post_login_cases in Hrun.
    repeat case_match; simplify_eq; try discriminate Hstatus.
    eexists. split; [reflexivity|apply delete_password_lookup].
Qed.

(** The fallback snapshot is always returned, and leaves the world alone. *)
Lemma getFallbackRates_returns (base : string) (w : World St) :
  getFallbackRates (VString base) w
  = (Returned (VObject
       {[ "base_code" := VString base;
          "conversion_rates" :=
            VObject (Fallback.cross_rates (Fallback.base_value base));
          "time_last_update_utc" := VString (now w) ]}), w).
Proof. reflexivity. Qed.

(** The default of the parameter: [fetchExchangeRates()] is
    [fetchExchangeRates('USD')]. *)
Lemma fetchExchangeRates_default (w : World St) :
  fetchExchangeRates VUndefined w = fetchExchangeRates (VString "USD") w.
Proof. reflexivity. Qed.

(** C7. With a credential configured (set and not empty) and a 2xx response
    to the one call of [axios.get] that is made, [fetchExchangeRates]
    returns the provider's data as received. In every other case it returns
    the fallback snapshot for the base currency: with no credential (and
    then [axios.get] is not called), on a network error, and on a response
    outside 2xx. *)
Theorem fetchExchangeRates_provider_or_fallback (base : string) (w : World St) :
  (forall k code data,
      configured (api_key w) = Some k ->
      http w (rates_url k base) = HttpResponse code data ->
      (200 <= code < 300)%Z ->
      fetchExchangeRates (VString base) w
      = (Returned data, log_request (rates_url k base) w))
  /\ (configured (api_key w) = None ->
      fetchExchangeRates (VString base) w = getFallbackRates (VString base) w)
  /\ (forall k e,
      configured (api_key w) = Some k ->
      http w (rates_url k base) = NetworkError e ->
      fetchExchangeRates (VString base) w
      = getFallbackRates (VString base) (log_request (rates_url k base) w))
  /\ (forall k code data,
      configured (api_key w) = Some k ->
      http w (rates_url k base) = HttpResponse code data ->
      ~ (200 <= code < 300)%Z ->
      fetchExchangeRates (VString base) w
      = getFallbackRates (VString base) (log_request (rates_url k base) w)).
Proof.
  unfold fetchExchangeRates, try_catch, bind, env_api_key, axios_get, lift.
  cbn [to_js_string]. repeat split.
  - intros k code data Hkey Hreply Hcode.
    rewrite Hkey. cbv beta iota. rewrite Hreply.
    replace ((200 <=? code)%Z && (code <? 300)%Z) with true; [done|].
    symmetry. apply andb_true_iff. split; [apply Z.leb_le|apply Z.ltb_lt]; lia.
  - now intros ->.
  - intros k e Hkey Hreply. rewrite Hkey. cbv beta iota. now rewrite Hreply.
  - intros k code data Hkey Hreply Hcode.
    rewrite Hkey. cbv beta iota. rewrite Hreply.
    replace ((200 <=? code)%Z && (code <? 300)%Z) with false; [done|].
    symmetry. apply andb_false_iff.
    destruct (Z.leb_spec 200 code); [right; apply Z.ltb_ge; lia|now left].
Qed.

(** [x || d] is [d] exactly when [x] is [NaN] or a zero, and is never falsy
    for a truthy default. *)
Lemma number_or_truthy (x d : float) :
  number_falsy d = false -> number_falsy (number_or x d) = false.
Proof.
  intros Hd. unfold number_or. now destruct (number_falsy x) eqn:Hx.
Qed.

(** [parseInt] yields [NaN] or the number nearest to an integer. *)
Definition integral (x : float) : Prop :=
  exists neg n, x = number_of_int neg n.

Lemma parseInt_integral (s : string) : parseInt s = nan \/ integral (parseInt s).
Proof.
  unfold parseInt. destruct (ParseInt.literal s) as [[neg n]|]; [right|now left].
  now exists neg, n.
Qed.

Lemma query_int_integral (req : request) (name : string) (x : float) :
  query_int req name = Returned x -> x = nan \/ integral x.
Proof.
  unfold query_int. destruct (to_js_string _) as [text|e]; [|discriminate].
  intros [= <-]. apply parseInt_integral.
Qed.

Lemma number_or_integral (x d : float) :
  (x = nan \/ integral x) -> integral d -> integral (number_or x d).
Proof.
  intros [->|Hx] Hd; unfold number_or; [exact Hd|].
  now destruct (number_falsy x).
Qed.

(** C8, as amended. [parseInt] is applied to [userId], [page] and
    [pageSize] as the query parser delivered them.
    - A parameter that cannot be turned into text (an object with a
      property named [toString], as the parser builds for
      [?userId[toString]=x]) makes [parseInt] throw: the answer is 500 and
      storage is not called.
    - Otherwise each parameter is read as an integer: an absent one and a
      string with no leading integer as [NaN], a string with a leading
      decimal integer as that integer. [page] and [pageSize] are then
      replaced by 1 and 10 when they are [NaN] or zero and kept when they
      are a nonzero integer (below 2^63 in size), so neither is ever [NaN]
      or zero. Storage is called with exactly these three numbers, and what
      it returns is sent with status 200. *)
Theorem list_conversions_arguments (req : request) (w : World St) :
  (forall name x,
      reads_as (get (query req) name) x -> query_int req name = Returned x)
  /\ (forall name o v,
        query req !! name = Some (VObject o) -> o !! "toString" = Some v ->
        exists e, query_int req name = Thrown e)
  /\ (forall e,
        query_int req "userId" = Thrown e
        \/ query_int req "page" = Thrown e
        \/ query_int req "pageSize" = Thrown e ->
        get_conversions req w
        = (Returned (json 500 (error_body "Failed to fetch conversions")), w))
  /\ (forall userId parsedPage parsedPageSize,
        query_int req "userId" = Returned userId ->
        query_int req "page" = Returned parsedPage ->
        query_int req "pageSize" = Returned parsedPageSize ->
        let page := number_or parsedPage 1 in
        let pageSize := number_or parsedPageSize 10 in
        (userId = nan \/ integral userId)
        /\ integral page /\ number_falsy page = false
        /\ integral pageSize /\ number_falsy pageSize = false
        /\ (forall result s,
              getConversions userId page pageSize (store w)
              = (Returned result, s) ->
              get_conversions req w
              = (Returned (json 200 result), set_store s w)))
  /\ (forall d,
        number_or nan d = d
        /\ (forall neg, number_or (number_of_int neg 0) d = d)
        /\ (forall neg n,
              (0 < n)%N -> (Z.of_N n < 2 ^ 63)%Z ->
              number_or (number_of_int neg n) d = number_of_int neg n)).
Proof.
  split; [|split; [|split; [|split]]].
  - intros name x Hreads. unfold query_int.
    destruct (parseInt_reads _ _ Hreads) as (text & -> & <-). reflexivity.
  - intros name o v Hparam HtoString. unfold query_int, get.
    rewrite Hparam. cbn [from_option id to_js_string]. rewrite HtoString.
    now eexists.
  - intros e Hthrown. run_handler.
    destruct (query_int req "userId") as [userId|e1];
      [|reflexivity].
    destruct (query_int req "page") as [parsedPage|e2];
      [|reflexivity].
    destruct (query_int req "pageSize") as [parsedPageSize|e3];
      [|reflexivity].
    now destruct Hthrown as [|[|]].
  - intros userId parsedPage parsedPageSize HuserId Hpage HpageSize page pageSize.
    split; [now apply (query_int_integral req "userId")|].
    split; [apply number_or_integral;
            [now apply (query_int_integral req "page")|now exists false, 1%N]|].
    split; [now apply number_or_truthy|].
    split; [apply number_or_integral;
            [now apply (query_int_integral req "pageSize")
            |now exists false, 10%N]|].
    split; [now apply number_or_truthy|].
    intros result s Hcall. run_handler.
    rewrite HuserId, Hpage, HpageSize. fold page pageSize. now rewrite Hcall.
  - intros d. split; [reflexivity|]. split.
    + intros neg. unfold number_or. now destruct neg.
    + intros neg n Hpositive Hbound. unfold number_or.
      now rewrite (number_of_int_truthy neg n Hpositive Hbound).
Qed.

(** C9. Every route always answers (no exception leaves a handler). An
    exception thrown anywhere in a route's [try] block, whatever it is,
    yields status 500 with that route's fixed message as the whole body;
    what the [try] block returns is sent as it is. The only statuses are
    200, 201, 400, 401 and 500, so a failure is a 400, a 401 or a 500. *)
Theorem handlers_catch_everything (r : route) (req : request) (w : World St) :
  (exists resp w',
      handler r req w = (Returned resp, w') /\ In (status resp) known_statuses)
  /\ (forall e w',
        try_block r req w = (Thrown e, w') ->
        handler r req w
        = (Returned (json 500 (error_body (failure_message r))), w'))
  /\ (forall resp w',
        try_block r req w = (Returned resp, w') ->
        handler r req w = (Returned resp, w')).
Proof.
  split; [|split].
  - destruct r; cbn [handler].
    + rewrite post_register_cases.
      repeat case_match; eexists _, _; (split; [reflexivity|]);
        cbn; tauto.
    + rewrite post_login_cases.
      repeat case_match; eexists _, _; (split; [reflexivity|]);
        cbn; tauto.
    + run_handler. repeat case_match; simplify_eq;
        eexists _, _; (split; [reflexivity|]); cbn; tauto.
    + run_handler. repeat case_match; simplify_eq;
        eexists _, _; (split; [reflexivity|]); cbn; tauto.
    + run_handler. repeat case_match; simplify_eq;
        eexists _, _; (split; [reflexivity|]); cbn; tauto.
  - intros e w' Htry.
    destruct r; cbn [handler try_block failure_message] in *;
      unfold post_register, post_login, get_exchange_rates, post_conversions,
        get_conversions, try_catch; now rewrite Htry.
  - intros resp w' Htry.
    destruct r; cbn [handler try_block] in *;
      unfold post_register, post_login, get_exchange_rates, post_conversions,
        get_conversions, try_catch; now rewrite Htry.
Qed.

(** C10. For a stored credential with no ['.'] in it, [comparePasswords]
    throws (the salt handed to scrypt is [undefined]) whatever password is
    supplied, and a login for a user with such a credential is answered 500,
    not 401. *)
Theorem credential_without_separator
    (stored : string) (Hstored : has_dot stored = false) :
  (forall supplied,
      exists msg, comparePasswords supplied (VString stored)
                  = Thrown (TypeError msg))
  /\ (forall req (w : World St) u s,
        getUserByUsername (get (body req) "username") (store w)
        = (Returned (Some u), s) ->
        get u "password" = VString stored ->
        post_login req w
        = (Returned (json 500 (error_body "Login failed")), set_store s w)).
Proof.
  assert (Hthrows : forall supplied,
             exists msg, comparePasswords supplied (VString stored)
                         = Thrown (TypeError msg)).
  { intros supplied. unfold comparePasswords.
    rewrite (split_without_dot _ Hstored). unfold scryptAsync.
    destruct supplied; eexists; reflexivity. }
  split; [exact Hthrows|].
  intros req w u s Hlookup Hpassword.
  rewrite post_login_cases, Hlookup, Hpassword.
  now destruct (Hthrows (get (body req) "password")) as [msg ->].
Qed.

End Routes.

(** ** The theorems at concrete requests *)

Lemma toy_kdf_length (p s : string) (n : nat) :
  length (Demo.toy_kdf p s n) = n.
Proof. unfold Demo.toy_kdf. now rewrite length_map, length_seq. Qed.

(** The stored string for the password "s3cret" under the stand-in key
    derivation, with the salt 00 01 ... 0f. *)
Lemma hashPassword_format_witness :
  (forall pw s n, length (@scrypt_kdf Demo.runtime pw s n) = n)
  /\ String.length
       (match fst (@hashPassword (list obj) Demo.runtime (VString "s3cret")
                     (Demo.world []))
        with Returned stored => stored | Thrown _ => "" end) = 161.
Proof.
  split; [exact toy_kdf_length|].
  destruct (@hashPassword_format (list obj) Demo.runtime "s3cret"
              (Demo.world []) toy_kdf_length) as [-> _].
  vm_compute. reflexivity.
Defined.

(** Registering "ann" a second time: 400, and the store still holds one
    user. *)
Lemma register_conflict_witness :
  let w1 := Demo.after_registering (Demo.credentials "ann" "s3cret") in
  @post_register _ Demo.memory Demo.runtime (Demo.credentials "ann" "other") w1
  = (Returned (json 400 (error_body "Username already exists")), w1)
  /\ length (store w1) = 1.
Proof.
  split; [|vm_compute; reflexivity].
  apply (proj1 (proj2 (@register_conflict_or_created _ Demo.memory
                         Demo.runtime (Demo.credentials "ann" "other") _))
           (Demo.first_user
              (Demo.after_registering (Demo.credentials "ann" "s3cret")))).
  vm_compute. reflexivity.
Defined.

(** Logging in as "ann" with the wrong password: 401. *)
Lemma login_unauthorized_witness :
  let w1 := Demo.after_registering (Demo.credentials "ann" "s3cret") in
  match fst (@post_login _ Demo.memory Demo.runtime
               (Demo.credentials "ann" "wrong") w1) with
  | Returned resp => status resp = 401%Z
  | Thrown _ => False
  end.
Proof.
  intros w1.
  destruct (@login_unauthorized_iff _ Demo.memory Demo.runtime
              (Demo.credentials "ann" "wrong") w1)
    as (resp & w' & -> & Hiff & _).
  cbn [fst]. apply Hiff. right. exists (Demo.first_user w1), (store w1).
  split; vm_compute; reflexivity.
Defined.

(** The 201 for "ann" carries her name and id only. *)
Lemma success_responses_omit_password_witness :
  let req := Demo.credentials "ann" "s3cret" in
  let resp := json 201 (VObject {[ "username" := VString "ann";
                                  "id" := VNumber 1%float ]}) in
  (@post_register _ Demo.memory Demo.runtime req (Demo.world [])
   = (Returned resp, Demo.after_registering req)
   /\ status resp = 201%Z)
  /\ exists user : obj, payload resp = VObject user /\ user !! "password" = None.
Proof.
  intros req resp.
  assert (Hrun : @post_register _ Demo.memory Demo.runtime req (Demo.world [])
                 = (Returned resp, Demo.after_registering req)
                 /\ status resp = 201%Z)
    by (split; vm_compute; reflexivity).
  split; [exact Hrun|].
  exact (@success_responses_omit_password _ Demo.memory Demo.runtime req
           (Demo.world []) (Demo.after_registering req) resp
           (or_introl Hrun)).
Defined.

(** A provider answering 200 is passed through; one answering 503 is
    replaced by the fallback snapshot. [axios.get] is called once either
    way. *)
Lemma fetchExchangeRates_witness :
  @fetchExchangeRates unit Demo.runtime (VString "EUR") (Demo.provider 200)
  = (Returned (VObject {[ "result" := VString "success" ]}),
     log_request "https://v6.exchangerate-api.com/v6/k3y/latest/EUR"
       (Demo.provider 200))
  /\ @fetchExchangeRates unit Demo.runtime (VString "EUR") (Demo.provider 503)
     = @getFallbackRates unit Demo.runtime (VString "EUR")
         (log_request "https://v6.exchangerate-api.com/v6/k3y/latest/EUR"
            (Demo.provider 503)).
Proof.
  split.
  - apply (proj1 (@fetchExchangeRates_provider_or_fallback unit Demo.runtime
                    "EUR" (Demo.provider 200)) "k3y" 200%Z);
      [reflexivity|reflexivity|lia].
  - apply (proj2 (proj2 (proj2 (@fetchExchangeRates_provider_or_fallback
                                  unit Demo.runtime "EUR" (Demo.provider 503))))
             "k3y" 503%Z (VObject {[ "result" := VString "success" ]}));
      [reflexivity|reflexivity|lia].
Defined.

(** [?page=25&pageSize=abc]: no user id, page 25, page size 10. *)
Lemma list_conversions_witness :
  let req := Demo.paging "25" "abc" in
  @query_int Demo.runtime req "userId" = Returned nan
  /\ @query_int Demo.runtime req "page" = Returned 25%float
  /\ @query_int Demo.runtime req "pageSize" = Returned nan
  /\ @get_conversions _ Demo.memory Demo.runtime req (Demo.world [])
     = (Returned (json 200 (VArray [VNumber nan; VNumber 25%float;
                                    VNumber 10%float])),
        Demo.world []).
Proof.
  intros req.
  destruct (@list_conversions_arguments _ Demo.memory Demo.runtime req
              (Demo.world [])) as (Hreads & _ & _ & Hcall & Hdefault).
  assert (HuserId : @query_int Demo.runtime req "userId" = Returned nan)
    by (apply Hreads; exact reads_absent).
  assert (Hpage : @query_int Demo.runtime req "page" = Returned 25%float)
    by (apply Hreads;
        exact (reads_integer "" Numeral.Unsigned [2; 5]%N "" eq_refl
                 ltac:(discriminate)
                 ltac:(repeat constructor) eq_refl ltac:(discriminate))).
  assert (HpageSize : @query_int Demo.runtime req "pageSize" = Returned nan)
    by (apply Hreads;
        exact (reads_no_integer "" Numeral.Unsigned "abc" eq_refl eq_refl
                 (fun _ => eq_refl))).
  split; [exact HuserId|]. split; [exact Hpage|]. split; [exact HpageSize|].
  destruct (Hcall _ _ _ HuserId Hpage HpageSize) as (_ & _ & _ & _ & _ & Hrun).
  apply Hrun. vm_compute. reflexivity.
Defined.

(** [?userId[toString]=x]: 500, although storage would have answered. *)
Lemma list_conversions_unprintable_userId :
  let req := mkRequest ∅
               {[ "userId" := VObject {[ "toString" := VString "x" ]} ]} in
  @get_conversions _ Demo.memory Demo.runtime req (Demo.world [])
  = (Returned (json 500 (error_body "Failed to fetch conversions")),
     Demo.world [])
  /\ @getConversions _ Demo.memory nan 1%float 10%float []
     = (Returned (VArray [VNumber nan; VNumber 1%float; VNumber 10%float]), []).
Proof. split; vm_compute; reflexivity. Qed.

(** Each of the five routes entering its [catch]: four with storage down,
    the exchange-rates route on [?base[toString]=x]. *)
Lemma handlers_catch_everything_witness :
  let answer r := (Returned (json 500 (error_body (failure_message r))),
                   Demo.world tt) in
  let unprintable := mkRequest ∅
                       {[ "base" := VObject {[ "toString" := VString "x" ]} ]} in
  @handler unit Demo.unreachable Demo.runtime PostRegister
    (Demo.credentials "ann" "s3cret") (Demo.world tt) = answer PostRegister
  /\ @handler unit Demo.unreachable Demo.runtime PostLogin
       (Demo.credentials "ann" "s3cret") (Demo.world tt) = answer PostLogin
  /\ @handler unit Demo.unreachable Demo.runtime GetExchangeRates
       unprintable (Demo.world tt) = answer GetExchangeRates
  /\ @handler unit Demo.unreachable Demo.runtime PostConversions
       (Demo.credentials "ann" "s3cret") (Demo.world tt) = answer PostConversions
  /\ @handler unit Demo.unreachable Demo.runtime GetConversions
       (Demo.paging "2" "3") (Demo.world tt) = answer GetConversions.
Proof.
  intros answer unprintable.
  pose (caught := fun r req =>
          proj1 (proj2 (@handlers_catch_everything unit Demo.unreachable
                          Demo.runtime r req (Demo.world tt)))).
  split; [apply (caught PostRegister _ Demo.down); vm_compute; reflexivity|].
  split; [apply (caught PostLogin _ Demo.down); vm_compute; reflexivity|].
  split; [apply (caught GetExchangeRates _
                   (TypeError "Cannot convert object to primitive value"));
          vm_compute; reflexivity|].
  split; [apply (caught PostConversions _ Demo.down); vm_compute; reflexivity|].
  apply (caught GetConversions _ Demo.down); vm_compute; reflexivity.
Defined.

(** A login for the user whose credential is "deadbeef": 500. *)
Lemma credential_without_separator_witness :
  has_dot "deadbeef" = false
  /\ @post_login _ Demo.memory Demo.runtime (Demo.credentials "bob" "hunter2")
       (Demo.world [Demo.legacy_user])
     = (Returned (json 500 (error_body "Login failed")),
        Demo.world [Demo.legacy_user]).
Proof.
  split; [reflexivity|].
  apply (proj2 (@credential_without_separator (list obj) Demo.memory
                  Demo.runtime "deadbeef" eq_refl)
           (Demo.credentials "bob" "hunter2") (Demo.world [Demo.legacy_user])
           Demo.legacy_user [Demo.legacy_user]);
    vm_compute; reflexivity.
Defined.

(** A 64-byte key that is not the one derived from "hunter2": the
    verification returns [false]. *)
Lemma comparePasswords_decides_witness :
  @comparePasswords Demo.runtime (VString "hunter2")
    (VString (Hex.encode (repeat Byte.x2a 64) +:+ "." +:+ "00ff"))
  = Returned false.
Proof.
  rewrite (proj1 (@comparePasswords_decides Demo.runtime "hunter2"
                    (repeat Byte.x2a 64) "00ff" toy_kdf_length
                    eq_refl eq_refl)).
  vm_compute. reflexivity.
Defined.

(** "XYZ" is not in the table and is not inherited: the rates are the table's
    own. *)
Lemma fallback_cross_rates_witness :
  existsb (String.eqb "XYZ") Fallback.object_prototype_members = false
  /\ Fallback.cross_rates (Fallback.base_value "XYZ") !! "EUR"
     = Some (VNumber (0.85 / 1)%float).
Proof.
  split; [reflexivity|].
  pose proof (@fallback_cross_rates "XYZ" eq_refl) as Hall.
  apply Forall_cons in Hall as [_ Hall]. apply Forall_cons in Hall as [Heur _].
  exact Heur.
Defined.

(** * The rest of the file *)

(** ** The serverless entry point *)

Module Adapter.

(** The prefix Netlify puts in front of the routes. *)
Definition prefix : string := "/.netlify/functions/api".

Fixpoint drop_chars (n : nat) (s : string) : string :=
  match n, s with
  | S n', String _ rest => drop_chars n' rest
  | _, _ => s
  end.

(** [s.replace(pattern, '')] for a string pattern: the first occurrence of
    the pattern is removed, a string without one is returned as it is. *)
Fixpoint remove_first (pattern s : string) : string :=
  match s with
  | "" => ""
  | String c rest =>
      if String.prefix pattern s then drop_chars (String.length pattern) s
      else String c (remove_first pattern rest)
  end.

(** The path the exported [handler] passes on to the Express app:
    [if (event.path.startsWith(p)) event.path = event.path.replace(p, '')]. *)
Definition event_path (path : string) : string :=
  if String.prefix prefix path then remove_first prefix path else path.

End Adapter.

Lemma prefix_app (p rest : string) : String.prefix p (p +:+ rest) = true.
Proof.
  induction p as [|c p IH]; [now destruct rest|].
  change (String.prefix (String c p) (String c (p +:+ rest)) = true).
  cbn [String.prefix].
  destruct (ascii_dec c c) as [_|Hc]; [exact IH|now destruct Hc].
Qed.

Lemma drop_chars_app (p rest : string) :
  Adapter.drop_chars (String.length p) (p +:+ rest) = rest.
Proof. induction p as [|c p IH]; cbn; [now destruct rest|exact IH]. Qed.

Lemma remove_first_at_start (p rest : string) :
  p <> "" -> Adapter.remove_first p (p +:+ rest) = rest.
Proof.
  intros Hp. destruct p as [|c p]; [now destruct Hp|].
  change (String c p +:+ rest) with (String c (p +:+ rest)).
  cbn [Adapter.remove_first].
  change (String c (p +:+ rest)) with (String c p +:+ rest).
  now rewrite prefix_app, drop_chars_app.
Qed.

Lemma substring_drop_chars (n : nat) (s : string) :
  s = substring 0 n s +:+ Adapter.drop_chars n s.
Proof.
  revert s. induction n as [|n IH]; intros [|c s]; try reflexivity.
  cbn [substring Adapter.drop_chars].
  change (String c s = String c (substring 0 n s +:+ Adapter.drop_chars n s)).
  f_equal. apply IH.
Qed.

(** A path under the Netlify prefix loses the prefix, once and only at the
    start: whatever follows is passed on as it is, be it empty, a further
    copy of the prefix, or text that does not begin with a ['/']. Any other
    path is passed on unchanged, also when the prefix occurs further in. *)
Theorem event_path_strips_prefix_once (path : string) :
  (forall rest,
      path = Adapter.prefix +:+ rest -> Adapter.event_path path = rest)
  /\ (String.prefix Adapter.prefix path = false ->
      Adapter.event_path path = path)
  /\ (path = Adapter.event_path path
      \/ path = Adapter.prefix +:+ Adapter.event_path path).
Proof.
  assert (Hstrip : forall rest,
             Adapter.event_path (Adapter.prefix +:+ rest) = rest).
  { intros rest. unfold Adapter.event_path.
    now rewrite prefix_app, remove_first_at_start. }
  split; [now intros rest ->|]. split.
  - unfold Adapter.event_path. now intros ->.
  - destruct (String.prefix Adapter.prefix path) eqn:Hpre.
    + right. apply prefix_correct in Hpre.
      rewrite (substring_drop_chars (String.length Adapter.prefix) path) at 1 2.
      now rewrite Hpre, Hstrip.
    + left. unfold Adapter.event_path. now rewrite Hpre.
Qed.

(** ** The error middleware *)

(** The error middleware always answers 500 with an object whose only
    property is [error], and that property is never falsy: it is the
    error's own message when there is a truthy one (so, unlike the routes,
    the middleware lets the detail of the error through), and the text
    "Internal Server Error" otherwise. *)
Theorem error_middleware_answers (err : error) :
  status (error_middleware err) = 500%Z
  /\ exists text : value,
       payload (error_middleware err) = VObject {[ "error" := text ]}
       /\ truthy text = true
       /\ (truthy (error_message err) = true -> text = error_message err)
       /\ (truthy (error_message err) = false ->
           text = VString "Internal Server Error").
Proof.
  split; [reflexivity|]. unfold error_middleware.
  destruct (truthy (error_message err)) eqn:Hmsg; eexists;
    (split; [reflexivity|]); repeat split; try done.
Qed.

(** ** More on the fallback snapshot *)

Section FallbackShape.

Import Fallback.

Context {St : Type} `{!Runtime}.

(** The table's own currencies. *)
Definition table_currencies : gset string := list_to_set (map fst baseRates).

Lemma cross_rates_dom (d : divisor) : dom (cross_rates d) = table_currencies.
Proof.
  unfold cross_rates, table_currencies. cbn [baseRates foldl map fst list_to_set].
  rewrite !dom_insert_L, dom_empty_L. set_solver.
Qed.

(** Whatever base is asked for, listed or not, the fallback snapshot is
    returned without touching the world and has the same shape: the base
    echoed as [base_code], the time of the call, and conversion rates for
    exactly the ten currencies of the table. *)
Theorem getFallbackRates_shape (base : string) (w : World St) :
  exists rates : obj,
    getFallbackRates (VString base) w
    = (Returned (VObject {[ "base_code" := VString base;
                            "conversion_rates" := VObject rates;
                            "time_last_update_utc" := VString (now w) ]}), w)
    /\ dom rates = table_currencies
    /\ (forall currency, currency ∈ table_currencies ->
          exists x, rates !! currency = Some (VNumber x)).
Proof.
  exists (cross_rates (base_value base)).
  split; [reflexivity|]. split; [apply cross_rates_dom|].
  intros currency Hin.
  pose proof (cross_rates_lookup (base_value base)) as Hall.
  unfold table_currencies in Hin. apply elem_of_list_to_set in Hin.
  apply list_elem_of_fmap in Hin as [[c r] [-> Hin]].
  rewrite Forall_forall in Hall.
  specialize (Hall _ Hin). cbn in Hall. eauto.
Qed.

(** A currency of the table, taken as the base, has rate exactly 1 against
    itself. *)
Theorem base_currency_rate_is_one (base : string) (x : float) :
  own_rate baseRates base = Some x ->
  cross_rates (base_value base) !! base = Some (VNumber 1%float).
Proof.
  intros Hx%own_rate_In. cbn [baseRates In] in Hx.
  repeat (destruct Hx as [[= <- _]|Hx]; [reflexivity|]). destruct Hx.
Qed.

End FallbackShape.

Lemma base_currency_rate_is_one_witness :
  Fallback.own_rate Fallback.baseRates "JPY" = Some 110.45%float
  /\ Fallback.cross_rates (Fallback.base_value "JPY") !! "JPY"
     = Some (VNumber 1%float).
Proof.
  split; [reflexivity|].
  exact (@base_currency_rate_is_one "JPY" 110.45%float eq_refl).
Defined.

(** ** More on the credential helpers *)

Lemma encode_injective (a b : list byte) : Hex.encode a = Hex.encode b -> a = b.
Proof.
  intros Hab. rewrite <- (decode_encode a), <- (decode_encode b). now rewrite Hab.
Qed.

Lemma split_hex_pair (key salt : list byte) :
  split "." (Hex.encode key +:+ "." +:+ Hex.encode salt)
  = [Hex.encode key; Hex.encode salt].
Proof.
  rewrite (split_at_first_dot _ _ (encode_has_no_dot key)).
  now rewrite (split_without_dot _ (encode_has_no_dot salt)).
Qed.

(** Two stored strings with different salts are different strings. *)
Lemma stored_strings_differ (key1 key2 salt1 salt2 : list byte) :
  salt1 <> salt2 ->
  Hex.encode key1 +:+ "." +:+ Hex.encode salt1
  <> Hex.encode key2 +:+ "." +:+ Hex.encode salt2.
Proof.
  intros Hsalt Hstored. apply (f_equal (split ".")) in Hstored.
  rewrite !split_hex_pair in Hstored. injection Hstored as _ Hhex.
  now apply Hsalt, encode_injective.
Qed.

Section MoreCredentials.

Context {St : Type} `{!Runtime}.

(** Two calls of [hashPassword] that draw different salts return different
    strings, whatever the two passwords are, the same one included. *)
Theorem hashPassword_distinct_salts
    (p1 p2 : string) (w1 w2 w1' w2' : World St) (stored1 stored2 : string) :
  map (entropy w1) (seq 0 16) <> map (entropy w2) (seq 0 16) ->
  hashPassword (VString p1) w1 = (Returned stored1, w1') ->
  hashPassword (VString p2) w2 = (Returned stored2, w2') ->
  stored1 <> stored2.
Proof.
  intros Hsalt Hrun1 Hrun2.
  pose (returned := fun r : outcome string * World St =>
                      match fst r with Returned s => s | Thrown _ => "" end).
  apply (f_equal returned) in Hrun1, Hrun2.
  rewrite hashPassword_string in Hrun1, Hrun2.
  unfold returned in Hrun1, Hrun2. cbv beta iota delta [fst] in Hrun1, Hrun2.
  rewrite <- Hrun1, <- Hrun2. now apply stored_strings_differ.
Qed.

(** Each call of [hashPassword] takes the next 16 bytes of the entropy
    source: of two calls in a row the first salts with bytes 0..15 and the
    second with bytes 16..31, and when these differ so do the two stored
    strings. *)
Theorem hashPassword_twice (p q : string) (w : World St) :
  let first := map (entropy w) (seq 0 16) in
  let second := map (entropy w) (seq 16 16) in
  exists a b w',
    (let* a := hashPassword (VString p) in
     let* b := hashPassword (VString q) in
     ret (a, b)) w = (Returned (a, b), w')
    /\ split "." a = [Hex.encode (scrypt_kdf p (Hex.encode first) 64);
                      Hex.encode first]
    /\ split "." b = [Hex.encode (scrypt_kdf q (Hex.encode second) 64);
                      Hex.encode second]
    /\ (first <> second -> a <> b).
Proof.
  intros first second. unfold bind, ret.
  rewrite (hashPassword_string p w), (hashPassword_string q (skip_entropy 16 w)).
  eexists _, _, _. split; [reflexivity|].
  split; [apply split_hex_pair|]. split; [apply (split_hex_pair _ second)|].
  intros Hsalt. now apply (stored_strings_differ _ _ first second).
Qed.

(** [hashPassword] on anything but a string throws a [TypeError], after the
    salt has been drawn. *)
Lemma hashPassword_not_a_string (password : value) (w : World St) :
  (forall p, password <> VString p) ->
  exists msg, hashPassword password w
              = (Thrown (TypeError msg), skip_entropy 16 w).
Proof.
  intros Hpassword. unfold hashPassword, bind, randomBytes, lift, scryptAsync.
  destruct password; try (eexists; reflexivity). now destruct (Hpassword s).
Qed.

Lemma split_cons (s : string) : exists seg segs, split "." s = seg :: segs.
Proof.
  induction s as [|c s (seg & segs & IH)]; [now exists "", []|].
  cbn [split]. destruct (Ascii.eqb c "."); [now eexists _, _|].
  rewrite IH. now eexists _, _.
Qed.

(** When [comparePasswords] answers at all. For a supplied string it
    returns [b] exactly when the stored string has at least two segments,
    the first one decodes from hex to 64 bytes, and [b] says whether these
    are the key derived from the supplied password and the second segment;
    on every other stored string (no ['.'], a key that is not hex or not 64
    bytes long) it throws. *)
Theorem comparePasswords_returns_iff
    (p stored : string) (b : bool)
    (scrypt_length : forall pw s n, length (scrypt_kdf pw s n) = n) :
  comparePasswords (VString p) (VString stored) = Returned b
  <-> exists hashed salt rest,
        split "." stored = hashed :: salt :: rest
        /\ length (Hex.decode hashed) = 64
        /\ b = bytes_eqb (Hex.decode hashed) (scrypt_kdf p salt 64).
Proof.
  unfold comparePasswords, scryptAsync, timingSafeEqual.
  destruct (split_cons stored) as (hashed & segs & ->).
  destruct segs as [|salt rest]; [split; [discriminate|]|].
  { intros (hashed' & salt & rest & [=] & _). }
  rewrite scrypt_length.
  destruct (Nat.eqb_spec (length (Hex.decode hashed)) 64) as [Hlen|Hlen]; split.
  - intros [= <-]. now exists hashed, salt, rest.
  - now intros (hashed' & salt' & rest' & [= <- <- <-] & _ & ->).
  - discriminate.
  - now intros (hashed' & salt' & rest' & [= <- <- <-] & Hlen' & _).
Qed.

(** Only the first two segments of the stored string are read: whatever
    follows a second ['.'] changes nothing. *)
Theorem comparePasswords_ignores_the_rest
    (supplied : value) (hashed salt extra : string) :
  has_dot hashed = false ->
  has_dot salt = false ->
  comparePasswords supplied (VString (hashed +:+ "." +:+ salt +:+ "." +:+ extra))
  = comparePasswords supplied (VString (hashed +:+ "." +:+ salt)).
Proof.
  intros Hhashed Hsalt. unfold comparePasswords.
  rewrite !(split_at_first_dot _ _ Hhashed).
  rewrite (split_at_first_dot _ _ Hsalt), (split_without_dot _ Hsalt).
  reflexivity.
Qed.

End MoreCredentials.

(** ** More on the routes *)

Section MoreRoutes.

Context {St : Type} `{!Storage St} `{!Runtime}.

Lemma hashPassword_world (password : value) (w : World St) :
  snd (hashPassword password w) = skip_entropy 16 w.
Proof.
  unfold hashPassword, bind, randomBytes, lift, scryptAsync, ret.
  now destruct password.
Qed.

(** A register request for a new username whose body has no string under
    [password] (none at all, a number, [null], ...) is answered 500: the
    salt is drawn, scrypt refuses the password, and [createUser] is never
    called, so storage is left as the lookup left it. *)
Theorem register_without_password (req : request) (w : World St) (s : St) :
  getUserByUsername (get (body req) "username") (store w) = (Returned None, s) ->
  (forall p, get (body req) "password" <> VString p) ->
  post_register req w
  = (Returned (json 500 (error_body "Failed to register user")),
     skip_entropy 16 (set_store s w)).
Proof.
  intros Hlookup Hpassword. rewrite post_register_cases, Hlookup.
  destruct (hashPassword_not_a_string _ (set_store s w) Hpassword) as [msg ->].
  reflexivity.
Qed.

(** Register, then log in. When storage keeps what it is given (the created
    user carries the hash it was handed, and a later lookup of the name
    finds that user), a login with the same username answers 200 with the
    user, less the password, if the supplied password derives the stored
    key under the stored salt, and 401 if it does not; the password that
    was registered always gets the 200. *)
Theorem register_then_login
    (req attempt : request) (w : World St) (p q : string)
    (s s' s'' : St) (user : obj)
    (scrypt_length : forall pw sl n, length (scrypt_kdf pw sl n) = n) :
  let username := get (body req) "username" in
  let salt := Hex.encode (map (entropy w) (seq 0 16)) in
  let hashed := Hex.encode (scrypt_kdf p salt 64) +:+ "." +:+ salt in
  getUserByUsername username (store w) = (Returned None, s) ->
  get (body req) "password" = VString p ->
  createUser (<[ "password" := VString hashed ]> (body req)) s
  = (Returned user, s') ->
  get user "password" = VString hashed ->
  get (body attempt) "username" = username ->
  get (body attempt) "password" = VString q ->
  getUserByUsername username s' = (Returned (Some user), s'') ->
  exists w1,
    post_register req w
    = (Returned (json 201 (VObject (delete "password" user))), w1)
    /\ post_login attempt w1
       = (Returned
            (if bytes_eqb (scrypt_kdf p salt 64) (scrypt_kdf q salt 64)
             then json 200 (VObject (delete "password" user))
             else json 401 (error_body "Invalid username or password")),
          set_store s'' w1)
    /\ (q = p ->
        post_login attempt w1
        = (Returned (json 200 (VObject (delete "password" user))),
           set_store s'' w1)).
Proof.
  intros username salt hashed Hnew Hpassword Hcreate Hkept Hname Hsupplied Hfound.
  subst username.
  exists (set_store s' (skip_entropy 16 (set_store s w))).
  assert (Hlogin :
    post_login attempt (set_store s' (skip_entropy 16 (set_store s w)))
    = (Returned
         (if bytes_eqb (scrypt_kdf p salt 64) (scrypt_kdf q salt 64)
          then json 200 (VObject (delete "password" user))
          else json 401 (error_body "Invalid username or password")),
       set_store s'' (set_store s' (skip_entropy 16 (set_store s w))))).
  { rewrite post_login_cases, Hname, Hsupplied. cbn [store set_store].
    rewrite Hfound, Hkept. unfold hashed.
    rewrite (comparePasswords_stored q _ salt (encode_has_no_dot _)).
    unfold timingSafeEqual. rewrite !scrypt_length, Nat.eqb_refl.
    now destruct (bytes_eqb _ _). }
  split; [|split; [exact Hlogin|]].
  - rewrite post_register_cases, Hnew, Hpassword, hashPassword_string.
    cbn [store set_store skip_entropy entropy]. fold salt hashed.
    now rewrite Hcreate.
  - intros ->. rewrite Hlogin. now rewrite bytes_eqb_refl.
Qed.

(** What the save-conversion route hands to storage: the body with
    [userId] replaced by a number, every other property as it came. The
    number is [parseInt] of the text of [body.userId]: for a string its
    leading integer, [NaN] when it has none, and [NaN] too when the body
    has no [userId] at all; in no case is the request turned down: what
    [saveConversion] returns is answered with 201. *)
Theorem save_conversion_data (req : request) (w : World St) (text : string) :
  to_js_string (get (body req) "userId") = Returned text ->
  let data := <[ "userId" := VNumber (parseInt text) ]> (body req) in
  data !! "userId" = Some (VNumber (parseInt text))
  /\ (forall k, k <> "userId" -> data !! k = body req !! k)
  /\ (forall t, body req !! "userId" = Some (VString t) -> text = t)
  /\ (body req !! "userId" = None -> parseInt text = nan)
  /\ (forall result s,
        saveConversion data (store w) = (Returned result, s) ->
        post_conversions req w = (Returned (json 201 result), set_store s w)).
Proof.
  intros Htext data. split; [apply lookup_insert_eq|].
  split; [intros k Hk; now apply lookup_insert_ne|].
  split; [|split].
  - intros t Ht. unfold get in Htext. rewrite Ht in Htext.
    cbn in Htext. congruence.
  - intros Hnone. unfold get in Htext. rewrite Hnone in Htext.
    cbn in Htext. injection Htext as <-. reflexivity.
  - intros result s Hsave. run_handler. rewrite Htext. fold data.
    now rewrite Hsave.
Qed.

(** A [userId] that is an object with a property named [toString] cannot
    be turned into text, so [parseInt] throws: the route answers 500 and
    storage is never called. *)
Theorem save_conversion_unprintable_userId
    (req : request) (w : World St) (o : obj) (v : value) :
  body req !! "userId" = Some (VObject o) ->
  o !! "toString" = Some v ->
  post_conversions req w
  = (Returned (json 500 (error_body "Failed to save conversion")), w).
Proof.
  intros HuserId HtoString. run_handler. unfold get. rewrite HuserId.
  cbn [from_option id to_js_string]. now rewrite HtoString.
Qed.

(** [fetchExchangeRates] on a base currency that has a text (every string
    has one) never throws: it returns a value, calls [axios.get] exactly
    once, with the provider's URL for that text, when a credential is
    configured and not at all otherwise, and leaves storage and the entropy
    source alone. On a base currency that has no text it throws, out of its
    own [catch] block, without having called [axios.get]. An [undefined]
    argument stands for 'USD'. *)
Theorem fetchExchangeRates_returns_or_throws
    (baseCurrency : value) (w : World St) :
  let base := match baseCurrency with
              | VUndefined => VString "USD"
              | _ => baseCurrency
              end in
  (forall text,
      to_js_string base = Returned text ->
      exists rates w',
        fetchExchangeRates baseCurrency w = (Returned rates, w')
        /\ axios_calls w'
           = (axios_calls w ++
              match configured (api_key w) with
              | Some k => [rates_url k text]
              | None => []
              end)%list
        /\ store w' = store w
        /\ entropy w' = entropy w)
  /\ (forall e,
        to_js_string base = Thrown e ->
        fetchExchangeRates baseCurrency w = (Thrown e, w)).
Proof.
  intros base.
  unfold fetchExchangeRates, try_catch, bind, env_api_key, axios_get,
    getFallbackRates, current_time, ret, lift.
  fold base. split.
  - intros text ->. destruct (configured (api_key w)) as [k|].
    + destruct (http w _) as [e|code data];
        [|destruct ((200 <=? code)%Z && (code <? 300)%Z)];
        eexists _, _; (split; [reflexivity|]); now cbn.
    + eexists _, _. split; [reflexivity|]. cbn. now rewrite app_nil_r.
  - intros e ->. now destruct (configured (api_key w)).
Qed.

(** The exchange-rates route answers 200 with what [fetchExchangeRates]
    returns whenever the [base] parameter has a text (a string always has;
    'USD' stands in for an absent or empty one), and answers 500 when it
    has none (an object with a property named [toString]): the route's
    [catch] is then entered. *)
Theorem exchange_rates_statuses (req : request) (w : World St) :
  let param := get (query req) "base" in
  let base := if truthy param then param else VString "USD" in
  (forall text,
      to_js_string base = Returned text ->
      exists rates w',
        fetchExchangeRates base w = (Returned rates, w')
        /\ get_exchange_rates req w = (Returned (json 200 rates), w'))
  /\ (forall e,
        to_js_string base = Thrown e ->
        get_exchange_rates req w
        = (Returned (json 500 (error_body "Failed to fetch exchange rates")), w))
  /\ (query req !! "base" = None \/ query req !! "base" = Some (VString "") ->
      base = VString "USD")
  /\ (forall b,
        query req !! "base" = Some (VString b) -> b <> "" ->
        base = VString b /\ to_js_string base = Returned b)
  /\ (forall o v,
        query req !! "base" = Some (VObject o) -> o !! "toString" = Some v ->
        exists e, to_js_string base = Thrown e).
Proof.
  intros param base.
  assert (Hdefined : match base with
                     | VUndefined => VString "USD"
                     | _ => base
                     end = base).
  { unfold base. destruct (truthy param) eqn:Htruthy; [|reflexivity].
    now destruct param. }
  split; [|split; [|split; [|split]]].
  - intros text Htext.
    unfold get_exchange_rates, exchange_rates_try, try_catch, bind, ret.
    fold param base.
    unfold fetchExchangeRates, try_catch, bind, env_api_key, axios_get,
      getFallbackRates, current_time, ret, lift.
    rewrite Hdefined, Htext. destruct (configured (api_key w)) as [k|].
    + destruct (http w _) as [e|code data];
        [|destruct ((200 <=? code)%Z && (code <? 300)%Z)]; now eexists _, _.
    + now eexists _, _.
  - intros e Htext.
    unfold get_exchange_rates, exchange_rates_try, try_catch, bind, ret.
    fold param base.
    unfold fetchExchangeRates, try_catch, bind, env_api_key, axios_get,
      getFallbackRates, current_time, ret, lift.
    rewrite Hdefined, Htext. now destruct (configured (api_key w)).
  - unfold base, param, get. now intros [->| ->].
  - intros b Hb Hnonempty. unfold base, param, get. rewrite Hb.
    cbn [from_option id truthy].
    destruct (String.eqb_spec b "") as [->|_]; [now destruct Hnonempty|].
    now split.
  - intros o v Ho HtoString. unfold base, param, get. rewrite Ho.
    cbn [from_option id truthy to_js_string]. rewrite HtoString. now eexists.
Qed.

(** What each route leaves alone: only the exchange-rates route calls
    [axios.get], and it never calls storage; only the register route draws
    random bytes. *)
Theorem routes_leave_the_rest_alone (r : route) (req : request) (w : World St) :
  let w' := snd (handler r req w) in
  (r <> GetExchangeRates -> axios_calls w' = axios_calls w)
  /\ (r <> PostRegister -> entropy w' = entropy w)
  /\ (r = GetExchangeRates -> store w' = store w).
Proof.
  destruct r; cbn [handler]; cbv zeta.
  - rewrite post_register_cases.
    destruct (getUserByUsername _ _) as [[[u|]|e] s]; [now cbn| |now cbn].
    pose proof (hashPassword_world (get (body req) "password") (set_store s w))
      as Hworld.
    destruct (hashPassword _ _) as [[hashed|e] w1]; cbn [snd] in Hworld;
      subst w1; [|now cbn].
    now destruct (createUser _ _) as [[user|e] s'].
  - rewrite post_login_cases. repeat case_match; now cbn.
  - run_handler. repeat case_match; simplify_eq; now cbn.
  - run_handler. repeat case_match; simplify_eq; now cbn.
  - run_handler. repeat case_match; simplify_eq; now cbn.
Qed.

End MoreRoutes.

(** ** These theorems at concrete requests *)

Module Samples.

(** A register request that carries no password. *)
Definition nameless_password : request :=
  mkRequest {[ "username" := VString "ann" ]} ∅.

(** A conversion whose [userId] came as a string. *)
Definition conversion : request :=
  mkRequest {[ "userId" := VString "42"; "from" := VString "EUR";
               "to" := VString "USD"; "amount" := VNumber 10%float ]} ∅.

(** A conversion whose [userId] is an object with a [toString] property. *)
Definition odd_conversion : request :=
  mkRequest {[ "userId" := VObject {[ "toString" := VNumber 1%float ]} ]} ∅.

(** What a computation returned, when it returned a string. *)
Definition returned {St} (r : outcome string * World St) : string :=
  match fst r with
  | Returned s => s
  | Thrown _ => ""
  end.

End Samples.

Lemma hashPassword_distinct_salts_witness :
  let w1 := Demo.world (@nil obj) in
  let w2 := skip_entropy 16 w1 in
  map (entropy w1) (seq 0 16) <> map (entropy w2) (seq 0 16)
  /\ Samples.returned (@hashPassword _ Demo.runtime (VString "s3cret") w1)
     <> Samples.returned (@hashPassword _ Demo.runtime (VString "s3cret") w2).
Proof.
  intros w1 w2.
  assert (Hsalts : map (entropy w1) (seq 0 16) <> map (entropy w2) (seq 0 16))
    by (vm_compute; discriminate).
  split; [exact Hsalts|].
  apply (@hashPassword_distinct_salts _ Demo.runtime "s3cret" "s3cret" w1 w2
           (skip_entropy 16 w1) (skip_entropy 16 w2) _ _ Hsalts);
    vm_compute; reflexivity.
Defined.

Lemma comparePasswords_returns_iff_witness :
  (forall pw s n, length (@scrypt_kdf Demo.runtime pw s n) = n)
  /\ @comparePasswords Demo.runtime (VString "hunter2")
       (VString (Hex.encode (repeat Byte.x2a 64) +:+ ".00ff.more"))
     = Returned false.
Proof.
  split; [exact toy_kdf_length|].
  apply (proj2 (@comparePasswords_returns_iff Demo.runtime "hunter2" _ false
                  toy_kdf_length)).
  exists (Hex.encode (repeat Byte.x2a 64)), "00ff", ["more"].
  repeat split; vm_compute; reflexivity.
Defined.

Lemma comparePasswords_ignores_the_rest_witness :
  (has_dot "abcd" = false /\ has_dot "00ff" = false)
  /\ @comparePasswords Demo.runtime (VString "hunter2") (VString "abcd.00ff.junk")
     = @comparePasswords Demo.runtime (VString "hunter2") (VString "abcd.00ff").
Proof.
  split; [now split|].
  exact (@comparePasswords_ignores_the_rest Demo.runtime (VString "hunter2")
           "abcd" "00ff" "junk" eq_refl eq_refl).
Defined.

(** No password in the body: 500, and the store stays empty. *)
Lemma register_without_password_witness :
  @post_register _ Demo.memory Demo.runtime Samples.nameless_password
    (Demo.world [])
  = (Returned (json 500 (error_body "Failed to register user")),
     skip_entropy 16 (Demo.world []))
  /\ store (skip_entropy 16 (Demo.world (@nil obj))) = [].
Proof.
  split; [|reflexivity].
  apply (@register_without_password _ Demo.memory Demo.runtime
           Samples.nameless_password (Demo.world []) []).
  - vm_compute. reflexivity.
  - intros p. vm_compute. discriminate.
Defined.

(** Prove the first premise of [H] by evaluating it. *)
Ltac discharge_by_computing H :=
  match type of H with
  | ?premise -> _ =>
      let Hpremise := fresh "Hpremise" in
      assert (Hpremise : premise) by (vm_compute; reflexivity);
      specialize (H Hpremise)
  end.

(** "ann" registers with "s3cret" and logs in with it: 200. *)
Lemma register_then_login_witness :
  let req := Demo.credentials "ann" "s3cret" in
  exists w1,
    fst (@post_register _ Demo.memory Demo.runtime req (Demo.world []))
    = Returned (json 201 (VObject {[ "username" := VString "ann";
                                    "id" := VNumber 1%float ]}))
    /\ snd (@post_register _ Demo.memory Demo.runtime req (Demo.world [])) = w1
    /\ fst (@post_login _ Demo.memory Demo.runtime req w1)
       = Returned (json 200 (VObject {[ "username" := VString "ann";
                                       "id" := VNumber 1%float ]})).
Proof.
  intros req.
  pose (user := Demo.first_user (Demo.after_registering req)).
  pose proof (@register_then_login _ Demo.memory Demo.runtime req req
                (Demo.world []) "s3cret" "s3cret" [] [user] [user] user
                toy_kdf_length) as Hrun.
  cbv zeta in Hrun. do 7 discharge_by_computing Hrun.
  destruct Hrun as (w1 & Hregister & _ & Hlogin).
  exists w1. rewrite Hregister, (Hlogin eq_refl). cbn [fst snd].
  repeat split; vm_compute; reflexivity.
Defined.

(** [userId: "42"] is saved as the number 42 and answered 201. *)
Lemma save_conversion_data_witness :
  to_js_string (H := Demo.runtime) (get (body Samples.conversion) "userId")
  = Returned "42"
  /\ @post_conversions _ Demo.memory Demo.runtime Samples.conversion
       (Demo.world [])
     = (Returned (json 201 (VObject (<[ "userId" := VNumber 42%float ]>
                                       (body Samples.conversion)))),
        Demo.world []).
Proof.
  split; [reflexivity|].
  destruct (@save_conversion_data _ Demo.memory Demo.runtime Samples.conversion
              (Demo.world []) "42" eq_refl) as (_ & _ & _ & _ & Hsaved).
  apply Hsaved. vm_compute. reflexivity.
Defined.

Lemma save_conversion_unprintable_userId_witness :
  body Samples.odd_conversion !! "userId"
  = Some (VObject {[ "toString" := VNumber 1%float ]})
  /\ @post_conversions _ Demo.memory Demo.runtime Samples.odd_conversion
       (Demo.world [])
     = (Returned (json 500 (error_body "Failed to save conversion")),
        Demo.world []).
Proof.
  split; [reflexivity|].
  exact (@save_conversion_unprintable_userId _ Demo.memory Demo.runtime
           Samples.odd_conversion (Demo.world [])
           {[ "toString" := VNumber 1%float ]} (VNumber 1%float)
           eq_refl eq_refl).
Defined.

(** ** Statuses and bodies *)

Section Statuses.

Context {St : Type} `{!Storage St} `{!Runtime}.

(** The register route answers 400 exactly when the lookup returned a user,
    and 201 exactly when the lookup returned none, the body's password is a
    string, and [createUser] returned for the body carrying its hash. *)
Theorem register_statuses (req : request) (w : World St) :
  let username := get (body req) "username" in
  let salt := Hex.encode (map (entropy w) (seq 0 16)) in
  exists resp w',
    post_register req w = (Returned resp, w')
    /\ (status resp = 400%Z <->
        exists u s, getUserByUsername username (store w) = (Returned (Some u), s))
    /\ (status resp = 201%Z <->
        exists s p user s',
          getUserByUsername username (store w) = (Returned None, s)
          /\ get (body req) "password" = VString p
          /\ createUser
               (<[ "password" :=
                     VString (Hex.encode (scrypt_kdf p salt 64) +:+ "." +:+ salt) ]>
                  (body req)) s
             = (Returned user, s')).
Proof.
  intros username salt. subst username. rewrite post_register_cases.
  destruct (getUserByUsername _ _) as [[[u|]|e] s].
  - eexists _, _. split; [reflexivity|]. cbn [status json]. split.
    + split; [now exists u, s|done].
    + split; [discriminate|]. now intros (s0 & p & user & s' & [=] & _).
  - destruct (get (body req) "password") as [| | | |p| |] eqn:Hpassword.
    5: { rewrite hashPassword_string. cbn [store set_store skip_entropy entropy].
         fold salt.
         destruct (createUser _ _) as [[user|e] s'] eqn:Hcreate;
           eexists _, _; (split; [reflexivity|]); cbn [status json]; split.
         - split; [discriminate|]. now intros (u & s0 & [=]).
         - split; [|done]. intros _. now exists s, p, user, s'.
         - split; [discriminate|]. now intros (u & s0 & [=]).
         - split; [discriminate|].
           intros (s0 & p0 & user & s'0 & [= <-] & [= <-] & Hreturned).
           rewrite Hcreate in Hreturned. discriminate. }
    all: match goal with
         | |- context [hashPassword ?v ?w0] =>
             destruct (hashPassword_not_a_string v w0) as [msg ->];
               [discriminate|]
         end.
    all: eexists _, _; (split; [reflexivity|]); cbn [status json]; split;
      (split; [discriminate|]).
    all: try (now intros (u & s0 & [=])).
    all: now intros (s0 & p0 & user & s'0 & _ & [=] & _).
  - eexists _, _. split; [reflexivity|]. cbn [status json]. split.
    + split; [discriminate|]. now intros (u & s0 & [=]).
    + split; [discriminate|]. now intros (s0 & p & user & s' & [=] & _).
Qed.

(** A login whose body has no string under [password] is answered 401 when
    the user is unknown but 500 when the user exists: the verification
    throws on the password before it compares anything. *)
Theorem login_without_password (req : request) (w : World St) :
  (forall p, get (body req) "password" <> VString p) ->
  (forall s,
      getUserByUsername (get (body req) "username") (store w)
      = (Returned None, s) ->
      post_login req w
      = (Returned (json 401 (error_body "Invalid username or password")),
         set_store s w))
  /\ (forall u s,
        getUserByUsername (get (body req) "username") (store w)
        = (Returned (Some u), s) ->
        post_login req w
        = (Returned (json 500 (error_body "Login failed")), set_store s w)).
Proof.
  intros Hpassword. split.
  - intros s Hlookup. now rewrite post_login_cases, Hlookup.
  - intros u s Hlookup. rewrite post_login_cases, Hlookup.
    assert (Hthrows : exists e,
               comparePasswords (get (body req) "password") (get u "password")
               = Thrown e).
    { unfold comparePasswords, scryptAsync.
      destruct (get u "password") as [| | | |stored| |]; try (now eexists).
      destruct (split_cons stored) as (hashed & segs & ->).
      destruct (get (body req) "password") as [| | | |p| |];
        try (now eexists); try (now destruct segs; eexists).
      now destruct (Hpassword p). }
    now destruct Hthrows as [e ->].
Qed.

(** The messages the routes send with a failure. *)
Definition failure_texts : list string :=
  [ "Username already exists"; "Invalid username or password";
    "Failed to register user"; "Login failed";
    "Failed to fetch exchange rates"; "Failed to save conversion";
    "Failed to fetch conversions" ].

(** Every answer with status 400, 401 or 500, from any route, has the body
    [{ error: text }] with [text] one of seven fixed texts; nothing that
    storage, scrypt or the network threw is part of it. *)
Theorem failures_carry_a_fixed_text
    (r : route) (req : request) (w w' : World St) (resp : response) :
  handler r req w = (Returned resp, w') ->
  In (status resp) [400; 401; 500]%Z ->
  exists text, payload resp = error_body text /\ In text failure_texts.
Proof.
  intros Hrun Hstatus. destruct r; cbn [handler] in Hrun.
  - rewrite post_register_cases in Hrun.
    repeat case_match; simplify_eq; cbn in Hstatus;
      try (exfalso; intuition discriminate);
      eexists; (split; [reflexivity|]); cbn; tauto.
  - rewrite post_login_cases in Hrun.
    repeat case_match; simplify_eq; cbn in Hstatus;
      try (exfalso; intuition discriminate);
      eexists; (split; [reflexivity|]); cbn; tauto.
  - run_handler. repeat case_match; simplify_eq; cbn in Hstatus;
      try (exfalso; intuition discriminate);
      eexists; (split; [reflexivity|]); cbn; tauto.
  - run_handler. repeat case_match; simplify_eq; cbn in Hstatus;
      try (exfalso; intuition discriminate);
      eexists; (split; [reflexivity|]); cbn; tauto.
  - run_handler. repeat case_match; simplify_eq; cbn in Hstatus;
      try (exfalso; intuition discriminate);
      eexists; (split; [reflexivity|]); cbn; tauto.
Qed.

End Statuses.

(** A login for "ann" with no password in the body: 500 once she exists. *)
Lemma login_without_password_witness :
  let w1 := Demo.after_registering (Demo.credentials "ann" "s3cret") in
  (forall p, get (body Samples.nameless_password) "password" <> VString p)
  /\ @post_login _ Demo.memory Demo.runtime Samples.nameless_password w1
     = (Returned (json 500 (error_body "Login failed")), w1).
Proof.
  intros w1.
  assert (Hpassword : forall p,
             get (body Samples.nameless_password) "password" <> VString p)
    by (intros p; vm_compute; discriminate).
  split; [exact Hpassword|].
  apply (proj2 (@login_without_password _ Demo.memory Demo.runtime
                  Samples.nameless_password w1 Hpassword)
           (Demo.first_user w1)).
  vm_compute. reflexivity.
Defined.

(** With storage down, the 500 of the register route carries its text. *)
Lemma failures_carry_a_fixed_text_witness :
  exists text,
    payload (json 500 (error_body "Failed to register user")) = error_body text
    /\ In text failure_texts.
Proof.
  apply (@failures_carry_a_fixed_text unit Demo.unreachable Demo.runtime
           PostRegister (Demo.credentials "ann" "s3cret") (Demo.world tt)
           (Demo.world tt)).
  - vm_compute. reflexivity.
  - cbn. tauto.
Defined.

(** [?base[toString]=x]: [fetchExchangeRates] throws and the route answers
    500; [?base=EUR] is answered 200. *)
Lemma exchange_rates_statuses_witness :
  let unprintable := mkRequest ∅
                       {[ "base" := VObject {[ "toString" := VString "x" ]} ]} in
  let euro := mkRequest ∅ {[ "base" := VString "EUR" ]} in
  @get_exchange_rates unit Demo.runtime unprintable (Demo.world tt)
  = (Returned (json 500 (error_body "Failed to fetch exchange rates")),
     Demo.world tt)
  /\ exists rates,
       @get_exchange_rates unit Demo.runtime euro (Demo.world tt)
       = (Returned (json 200 rates), Demo.world tt).
Proof.
  intros unprintable euro. split.
  - apply (proj1 (proj2 (@exchange_rates_statuses unit Demo.runtime
                           unprintable (Demo.world tt)))
             (TypeError "Cannot convert object to primitive value")).
    reflexivity.
  - destruct (proj1 (@exchange_rates_statuses unit Demo.runtime euro
                       (Demo.world tt)) "EUR" eq_refl)
      as (rates & w' & Hfetch & Hroute).
    exists rates. rewrite Hroute. f_equal.
    apply (f_equal snd) in Hfetch. cbn [snd] in Hfetch. now rewrite <- Hfetch.
Defined.

Lemma fetchExchangeRates_returns_or_throws_witness :
  @fetchExchangeRates unit Demo.runtime
    (VObject {[ "toString" := VString "x" ]}) (Demo.provider 200)
  = (Thrown (TypeError "Cannot convert object to primitive value"),
     Demo.provider 200)
  /\ exists rates w',
       @fetchExchangeRates unit Demo.runtime VUndefined (Demo.provider 200)
       = (Returned rates, w')
       /\ axios_calls w'
          = ["https://v6.exchangerate-api.com/v6/k3y/latest/USD"].
Proof.
  split.
  - apply (proj2 (@fetchExchangeRates_returns_or_throws unit Demo.runtime
                    (VObject {[ "toString" := VString "x" ]})
                    (Demo.provider 200))).
    reflexivity.
  - destruct (proj1 (@fetchExchangeRates_returns_or_throws unit Demo.runtime
                       VUndefined (Demo.provider 200)) "USD" eq_refl)
      as (rates & w' & Hfetch & Hrequests & _).
    now exists rates, w'.
Defined.
